(** * airshipctl, package [remote]: the out-of-band host manager

    A shallow embedding of [pkg/remote/management.go]: the host selectors
    [ByLabel] and [ByName], the constructor [NewManager], the vendor
    dispatch [newBaremetalHost] and the reconciliation [reconcileHosts].

    The packages that [management.go] calls into ([config], [phase],
    [document], [redfish], [redfish/vendors/dell]) are collaborators.
    Their operations are the fields of the class [Collaborators]; every
    call the Go code makes to one of them is recorded, with its outcome,
    in a log, so that statements about what happens before what can be
    read off the log of a run. *)

From stdpp Require Import base strings list gmap.
From Stdlib Require Import ZArith.

Local Open Scope string_scope.
Local Open Scope list_scope.

(** ** Package [document]: selectors *)

Module document.

(** Modelled from the spec: the selector type of package [document]
    is declared outside [management.go].  The core composes
    [NewSelector().ByKind(k)] with [ByLabel(l)] or [ByName(n)]; a field
    left alone keeps Go's zero value, the empty string. *)
Record Selector : Type := mkSelector {
  Kind : string;
  Name : string;
  LabelSelector : string
}.

Definition NewSelector : Selector :=
  {| Kind := ""; Name := ""; LabelSelector := "" |}.

Definition ByKind (kind : string) (s : Selector) : Selector :=
  {| Kind := kind; Name := Name s; LabelSelector := LabelSelector s |}.

Definition ByLabel (label : string) (s : Selector) : Selector :=
  {| Kind := Kind s; Name := Name s; LabelSelector := label |}.

Definition ByName (name : string) (s : Selector) : Selector :=
  {| Kind := Kind s; Name := name; LabelSelector := LabelSelector s |}.

(** Modelled from the spec: the constant [document.BareMetalHostKind]
    ("kind=BareMetalHost"). *)
Definition BareMetalHostKind : string := "BareMetalHost".

End document.

(** ** Errors

    Go's [error] values.  The three named ones are the errors that the
    manager and its configuration raise; [ErrOther] stands for whatever
    else a collaborator returns. *)
Inductive error : Type :=
  | ErrDocNotFound (Selector : document.Selector)
  | ErrNoHostsFound
  | ErrUnknownManagementType (Type_ : string)
  | ErrOther (msg : string).

(** ** Package [config]: the management configuration *)

(** Modelled from the spec: the struct [config.ManagementConfiguration]
    is declared outside [management.go]; its fields are those of the spec's
    table (section 6) and of the uses in [newBaremetalHost].  [Type] is a
    reserved word, hence [Type_]. *)
Record ManagementConfiguration : Type := mkManagementConfiguration {
  Type_ : string;
  Insecure : bool;
  UseProxy : bool;
  SystemActionRetries : Z;
  SystemRebootDelay : Z
}.

(** ** The collaborators

    The types and operations of the other packages that the manager
    uses.  They are declared outside [management.go] and are taken as
    parameters: what holds below holds for every implementation of them. *)

Class Collaborators : Type := {
  (* types owned by other packages *)
  config_Config : Type;
  phase_Helper : Type;
  ifc_Phase : Type;
  document_Bundle : Type;
  document_Document : Type;
  remote_Client : Type;
  context_Context : Type;
  (* package config *)
  CurrentContextManagementConfig :
    config_Config → error + ManagementConfiguration;
  ValidateFields : ManagementConfiguration → option error;
  (* package phase *)
  NewHelper : config_Config → error + phase_Helper;
  PhaseByID : phase_Helper → string → error + ifc_Phase;
  DocumentRoot : ifc_Phase → error + string;
  (* package document *)
  NewBundleByPath : string → error + document_Bundle;
  Select : document_Bundle → document.Selector → error + list document_Document;
  SelectOneAmbiguous :
    document_Bundle → document.Selector → list document_Document →
    error + document_Document;
  GetName : document_Document → string;
  GetBMHBMCAddress : document_Document → error + string;
  GetBMHBMCCredentials :
    document_Document → document_Bundle → error + (string * string);
  (* packages redfish and redfish/vendors/dell *)
  redfish_ClientType : string;
  redfish_NewClient :
    string → bool → bool → string → string → Z → Z →
    error + (context_Context * remote_Client);
  redfishdell_ClientType : string;
  redfishdell_NewClient :
    string → bool → bool → string → string → Z → Z →
    error + (context_Context * remote_Client)
}.

(** ** Effects: a state and error monad, and a log of collaborator calls *)

(** A computation over a state [S] that ends in an error or in a value;
    the state it has reached survives an error, as the memory of a Go
    program survives an early [return err]. *)
Definition M (S A : Type) : Type := S → (error + A) * S.

#[export] Instance M_ret {S} : MRet (M S) := λ A a s, (inr a, s).

#[export] Instance M_bind {S} : MBind (M S) := λ A B k c s,
  match c s with
  | (inl e, s') => (inl e, s')
  | (inr a, s') => k a s'
  end.

#[export] Instance M_throw {S} : MThrow error (M S) := λ A e s, (inl e, s).

Definition err_of {A} (r : error + A) : option error :=
  match r with inl e => Some e | inr _ => None end.

Section Remote.
Context `{Collaborators}.

Inductive Call : Type :=
  | CallCurrentContextManagementConfig
  | CallValidate (m : ManagementConfiguration)
  | CallNewHelper
  | CallPhaseByID (phaseName : string)
  | CallDocumentRoot
  | CallNewBundleByPath (docRoot : string)
  | CallSelect (selector : document.Selector)
  | CallSelectOne (selector : document.Selector)
  | CallGetBMHBMCAddress (hostDoc : document_Document)
  | CallGetBMHBMCCredentials (hostDoc : document_Document)
  | CallNewClient (clientType address : string).

(** One call and its outcome: [None] when it returned a nil error. *)
Record Event : Type := mkEvent {
  ev_call : Call;
  ev_err : option error
}.

Definition Log : Type := list Event.

(** A call to a collaborator: its result is what the collaborator
    returns, and the call is appended to the log. *)
Definition call {A} (c : Call) (r : error + A) : M Log A :=
  λ l, (r, l ++ [{| ev_call := c; ev_err := err_of r |}]).

(** ** Package [config] and [document]: what the spec says of two
    operations that the manager relies on *)

Definition recognized (ty : string) : bool :=
  bool_decide (ty = redfish_ClientType) || bool_decide (ty = redfishdell_ClientType).

(** Modelled from the spec: [ManagementConfiguration.Validate] is defined
    in package [config], outside [management.go].  "Must pass validation (recognized type, internally
    consistent fields)"; "for an unrecognized type, construction fails
    immediately with an unknown management type error".  What makes the
    other fields consistent is left to the collaborator [ValidateFields]. *)
Definition Validate (m : ManagementConfiguration) : option error :=
  if recognized (Type_ m) then ValidateFields m
  else Some (ErrUnknownManagementType (Type_ m)).

(** Modelled from the spec: [Bundle.SelectOne] is defined in package
    [document], outside [management.go].  "SelectOne(selector) -> document | NotFoundError": zero matches is a
    document-not-found error, exactly one match is that document.  The
    spec does not say what several matches give: that is left to the
    collaborator [SelectOneAmbiguous]. *)
Definition SelectOne (docBundle : document_Bundle) (selector : document.Selector)
  : error + document_Document :=
  match Select docBundle selector with
  | inl e => inl e
  | inr [] => inl (ErrDocNotFound selector)
  | inr [doc] => inr doc
  | inr docs => SelectOneAmbiguous docBundle selector docs
  end.

(** ** Package [remote] *)

(** [baremetalHost] embeds the [Client] interface; its methods play no
    part in the construction of a manager and the client is kept as a
    value of the collaborator's type. *)
Record baremetalHost : Type := mkBaremetalHost {
  Client : remote_Client;
  Context : context_Context;
  BMCAddress : string;
  HostName : string;
  username : string;
  password : string
}.

Record Manager : Type := mkManager {
  Config : ManagementConfiguration;
  Hosts : list baremetalHost
}.

(** The memory a selector works on: the manager behind the pointer it is
    given, and the log. *)
Record MState : Type := mkMState {
  mgr : Manager;
  log : Log
}.

(** A log-only computation run inside a selector. *)
Definition io {A} (c : M Log A) : M MState A :=
  λ s, let '(r, l) := c (log s) in (r, {| mgr := mgr s; log := l |}).

Definition getHosts : M MState (list baremetalHost) :=
  λ s, (inr (Hosts (mgr s)), s).

Definition setHosts (hs : list baremetalHost) : M MState () :=
  λ s, (inr (), {| mgr := {| Config := Config (mgr s); Hosts := hs |}; log := log s |}).

Definition HostSelector : Type :=
  ManagementConfiguration → document_Bundle → M MState ().

(** [reconcileHosts]: the map of the existing hosts' names, then the scan
    of the new hosts.  A nil slice and an empty slice are both []. *)
Definition hostMap_of (existingHosts : list baremetalHost) : gmap string bool :=
  foldl (λ hostMap host, <[HostName host := true]> hostMap) ∅ existingHosts.

Definition reconcileHosts (existingHosts newHosts : list baremetalHost)
  : list baremetalHost :=
  if bool_decide (length existingHosts = 0) then newHosts
  else
    let hostMap := hostMap_of existingHosts in
    foldl (λ reconciledHosts host,
             match hostMap !! HostName host with
             | Some _ => reconciledHosts ++ [host]
             | None => reconciledHosts
             end) [] newHosts.

(** [newBaremetalHost]: address, then credentials, then the switch on
    the management type. *)
Definition newBaremetalHost (mgmtCfg : ManagementConfiguration)
  (hostDoc : document_Document) (docBundle : document_Bundle) : M Log baremetalHost :=
  address ← call (CallGetBMHBMCAddress hostDoc) (GetBMHBMCAddress hostDoc);
  '(username, password) ←
    call (CallGetBMHBMCCredentials hostDoc) (GetBMHBMCCredentials hostDoc docBundle);
  if bool_decide (Type_ mgmtCfg = redfish_ClientType) then
    '(ctx, client) ←
      call (CallNewClient redfish_ClientType address)
        (redfish_NewClient address (Insecure mgmtCfg) (UseProxy mgmtCfg)
           username password (SystemActionRetries mgmtCfg) (SystemRebootDelay mgmtCfg));
    mret (mkBaremetalHost client ctx address (GetName hostDoc) username password)
  else if bool_decide (Type_ mgmtCfg = redfishdell_ClientType) then
    '(ctx, client) ←
      call (CallNewClient redfishdell_ClientType address)
        (redfishdell_NewClient address (Insecure mgmtCfg) (UseProxy mgmtCfg)
           username password (SystemActionRetries mgmtCfg) (SystemRebootDelay mgmtCfg));
    mret (mkBaremetalHost client ctx address (GetName hostDoc) username password)
  else mthrow (ErrUnknownManagementType (Type_ mgmtCfg)).

(** The loop of [ByLabel] over the selected documents. *)
Fixpoint ByLabel_loop (mgmtCfg : ManagementConfiguration) (docBundle : document_Bundle)
  (docs : list document_Document) (matchingHosts : list baremetalHost)
  : M Log (list baremetalHost) :=
  match docs with
  | [] => mret matchingHosts
  | doc :: docs' =>
      host ← newBaremetalHost mgmtCfg doc docBundle;
      ByLabel_loop mgmtCfg docBundle docs' (matchingHosts ++ [host])
  end.

Definition ByLabel (label : string) : HostSelector := λ mgmtCfg docBundle,
  let selector := document.ByLabel label (document.ByKind document.BareMetalHostKind document.NewSelector) in
  docs ← io (call (CallSelect selector) (Select docBundle selector));
  if bool_decide (length docs = 0) then mthrow (ErrDocNotFound selector)
  else
    matchingHosts ← io (ByLabel_loop mgmtCfg docBundle docs []);
    existing ← getHosts;
    setHosts (reconcileHosts existing matchingHosts).

Definition ByName (name : string) : HostSelector := λ mgmtCfg docBundle,
  let selector := document.ByName name (document.ByKind document.BareMetalHostKind document.NewSelector) in
  doc ← io (call (CallSelectOne selector) (SelectOne docBundle selector));
  host ← io (newBaremetalHost mgmtCfg doc docBundle);
  existing ← getHosts;
  setHosts (reconcileHosts existing [host]).

(** The loop of [NewManager] over the selectors. *)
Fixpoint runSelectors (hosts : list HostSelector) (managementCfg : ManagementConfiguration)
  (docBundle : document_Bundle) : M MState () :=
  match hosts with
  | [] => mret ()
  | addHost :: hosts' =>
      addHost managementCfg docBundle;;
      runSelectors hosts' managementCfg docBundle
  end.

(** The steps of [NewManager] before the manager is allocated. *)
Definition loadBundle (cfg : config_Config) (phaseName : string)
  : M Log (ManagementConfiguration * document_Bundle) :=
  managementCfg ← call CallCurrentContextManagementConfig (CurrentContextManagementConfig cfg);
  call (CallValidate managementCfg)
    (match Validate managementCfg with Some e => inl e | None => inr () end);;
  helper ← call CallNewHelper (NewHelper cfg);
  phase ← call (CallPhaseByID phaseName) (PhaseByID helper phaseName);
  docRoot ← call CallDocumentRoot (DocumentRoot phase);
  docBundle ← call (CallNewBundleByPath docRoot) (NewBundleByPath docRoot);
  mret (managementCfg, docBundle).

(** [NewManager] returns Go's pair of a manager pointer ([None] is nil)
    and an error ([None] is nil), and the log of the calls it made. *)
Definition NewManager (cfg : config_Config) (phaseName : string)
  (hosts : list HostSelector) : Log → (option Manager * option error) * Log :=
  λ l0,
  match loadBundle cfg phaseName l0 with
  | (inl e, l) => ((None, Some e), l)
  | (inr (managementCfg, docBundle), l) =>
      let manager := {| Config := managementCfg; Hosts := [] |} in
      match runSelectors hosts managementCfg docBundle {| mgr := manager; log := l |} with
      | (inl e, s) => ((None, Some e), log s)
      | (inr _, s) =>
          if bool_decide (length (Hosts (mgr s)) = 0)
          then ((Some (mgr s), Some ErrNoHostsFound), log s)
          else ((Some (mgr s), None), log s)
      end
  end.

(** ** Vocabulary of the statements *)

(** An event that reports error [e] decides the result of the run. *)
Definition faithful {A} (r : error + A) (evs : list Event) : Prop :=
  ∀ ev e, ev ∈ evs → ev_err ev = Some e → err_of r = Some e.

(** [tidy π P c]: a run of [c] only appends to the log (read through [π]),
    what it appends satisfies [P], and the first failed call ends it. *)
Definition tidy {S A} (π : S → Log) (P : Event → Prop) (c : M S A) : Prop :=
  ∀ s, ∃ evs, π (c s).2 = π s ++ evs ∧ faithful (c s).1 evs ∧ Forall P evs.

(** The calls of a selector: selection, resolution and client calls. *)
Definition isSelectionCall (c : Call) : bool :=
  match c with
  | CallSelect _ | CallSelectOne _ | CallGetBMHBMCAddress _
  | CallGetBMHBMCCredentials _ | CallNewClient _ _ => true
  | _ => false
  end.

(** The calls that load the bundle of the phase. *)
Definition isBundleCall (c : Call) : bool :=
  match c with
  | CallNewHelper | CallPhaseByID _ | CallDocumentRoot | CallNewBundleByPath _ => true
  | _ => false
  end.

Definition isResolveCall (c : Call) : bool :=
  match c with CallCurrentContextManagementConfig => true | _ => false end.

Definition isValidateCall (c : Call) : bool :=
  match c with CallValidate _ => true | _ => false end.

Definition selectionEvent (ev : Event) : Prop := isSelectionCall (ev_call ev) = true.

(** The selectors that callers build: by name or by label. *)
Inductive Criterion : Type :=
  | byName (name : string)
  | byLabel (label : string).

Definition selectorOf (c : Criterion) : HostSelector :=
  match c with
  | byName name => ByName name
  | byLabel label => ByLabel label
  end.

Definition nameSelector (name : string) : document.Selector :=
  document.ByName name (document.ByKind document.BareMetalHostKind document.NewSelector).

Definition labelSelector (label : string) : document.Selector :=
  document.ByLabel label (document.ByKind document.BareMetalHostKind document.NewSelector).

(** What [newBaremetalHost] returns for a document; the log plays no part
    in it ([newBaremetalHost_result]). *)
Definition hostOf (mgmtCfg : ManagementConfiguration) (docBundle : document_Bundle)
  (hostDoc : document_Document) : error + baremetalHost :=
  (newBaremetalHost mgmtCfg hostDoc docBundle []).1.

Definition withHosts (m : Manager) (hs : list baremetalHost) : Manager :=
  {| Config := Config m; Hosts := hs |}.

(** The hosts built for a list of documents, one per document, in order. *)
Definition builtFrom mgmtCfg docBundle (hs : list baremetalHost)
  (docs : list document_Document) : Prop :=
  Forall2 (λ h doc, hostOf mgmtCfg docBundle doc = inr h) hs docs.

(** The steps of [loadBundle] after validation. *)
Definition openBundle (cfg : config_Config) (phaseName : string)
  (managementCfg : ManagementConfiguration)
  : M Log (ManagementConfiguration * document_Bundle) :=
  helper ← call CallNewHelper (NewHelper cfg);
  phase ← call (CallPhaseByID phaseName) (PhaseByID helper phaseName);
  docRoot ← call CallDocumentRoot (DocumentRoot phase);
  docBundle ← call (CallNewBundleByPath docRoot) (NewBundleByPath docRoot);
  mret (managementCfg, docBundle).

Definition bundleEvent (ev : Event) : Prop := isBundleCall (ev_call ev) = true.

(** Loading or selecting: every call but resolution and validation. *)
Definition laterEvent (ev : Event) : Prop :=
  isBundleCall (ev_call ev) || isSelectionCall (ev_call ev) = true.

Definition resolutions (l : Log) : nat :=
  length (List.filter (λ ev, isResolveCall (ev_call ev)) l).

Definition validations (l : Log) : nat :=
  length (List.filter (λ ev, isValidateCall (ev_call ev)) l).

(** The manager that [NewManager] allocates before the loop. *)
Definition fresh (managementCfg : ManagementConfiguration) (l : Log) : MState :=
  {| mgr := {| Config := managementCfg; Hosts := [] |}; log := l |}.

(** A failed resolution of the BMC address or of the credentials of a
    document. *)
Definition resolutionFailure (hostDoc : document_Document) (e : error) (ev : Event) : Prop :=
  ev_err ev = Some e
  ∧ (ev_call ev = CallGetBMHBMCAddress hostDoc ∨ ev_call ev = CallGetBMHBMCCredentials hostDoc).

(** The names of the hosts that a criterion matches when it is run on its
    own: on a manager without hosts, from an empty log. *)
Definition matchNames (c : Criterion) (mgmtCfg : ManagementConfiguration)
  (docBundle : document_Bundle) : option (list string) :=
  match selectorOf c mgmtCfg docBundle (fresh mgmtCfg []) with
  | (inr _, s) => Some (HostName <$> Hosts (mgr s))
  | (inl _, _) => None
  end.

(** What a criterion builds from the bundle, whatever the manager holds:
    the hosts it hands to [reconcileHosts], or the error it returns. *)
Definition matchedHosts (c : Criterion) (mgmtCfg : ManagementConfiguration)
  (docBundle : document_Bundle) : error + list baremetalHost :=
  match c with
  | byName name =>
      match SelectOne docBundle (nameSelector name) with
      | inl e => inl e
      | inr doc =>
          match hostOf mgmtCfg docBundle doc with
          | inl e => inl e
          | inr host => inr [host]
          end
      end
  | byLabel label =>
      match Select docBundle (labelSelector label) with
      | inl e => inl e
      | inr docs =>
          if bool_decide (length docs = 0) then inl (ErrDocNotFound (labelSelector label))
          else (ByLabel_loop mgmtCfg docBundle docs [] []).1
      end
  end.

(** [reconcileHosts] on names. *)
Definition reconcileNames (existing new : list string) : list string :=
  if bool_decide (existing = []) then new else filter (λ n, n ∈ existing) new.

End Remote.

(** ** A fixture: documents held in memory

    The counterpart of the test data of the Go unit tests: a bundle is a
    list of documents, selection filters it, and every BMC answers. *)

Module fixture.

Record Doc : Type := mkDoc {
  dKind : string;
  dNamespace : string;
  dName : string;
  dLabels : list string;
  dAddress : option string;
  dCredentials : option (string * string)
}.

Definition selects (selector : document.Selector) (d : Doc) : bool :=
  (bool_decide (document.Kind selector = "") || bool_decide (document.Kind selector = dKind d))
  && (bool_decide (document.Name selector = "") || bool_decide (document.Name selector = dName d))
  && (bool_decide (document.LabelSelector selector = "")
      || bool_decide (document.LabelSelector selector ∈ dLabels d)).

(** The collaborators over a directory that holds [docs], for a
    configuration file whose current context may name a management
    configuration. *)
Definition world (docs : list Doc) : Collaborators := {|
  config_Config := option ManagementConfiguration;
  phase_Helper := ();
  ifc_Phase := string;
  document_Bundle := list Doc;
  document_Document := Doc;
  remote_Client := string;
  context_Context := ();
  CurrentContextManagementConfig := λ cfg,
    match cfg with
    | Some m => inr m
    | None => inl (ErrOther "missing management configuration")
    end;
  ValidateFields := λ _, None;
  NewHelper := λ _, inr ();
  PhaseByID := λ _ phaseName, inr phaseName;
  DocumentRoot := λ phase, inr ("manifests/" +:+ phase);
  NewBundleByPath := λ _, inr docs;
  Select := λ bundle selector, inr (filter (λ d, selects selector d) bundle);
  SelectOneAmbiguous := λ _ _ _, inl (ErrOther "multiple documents found");
  GetName := dName;
  GetBMHBMCAddress := λ d,
    match dAddress d with
    | Some a => inr a
    | None => inl (ErrOther "missing BMC address")
    end;
  GetBMHBMCCredentials := λ d _,
    match dCredentials d with
    | Some c => inr c
    | None => inl (ErrOther "missing BMC credentials")
    end;
  redfish_ClientType := "redfish";
  redfish_NewClient := λ address _ _ _ _ _ _, inr ((), "redfish@" +:+ address);
  redfishdell_ClientType := "redfish-dell";
  redfishdell_NewClient := λ address _ _ _ _ _ _, inr ((), "idrac@" +:+ address)
|}.

Definition host (name : string) (labels : list string) : Doc :=
  {| dKind := "BareMetalHost"; dNamespace := "default"; dName := name; dLabels := labels;
     dAddress := Some ("redfish+https://" +:+ name);
     dCredentials := Some ("admin", "secret") |}.

(** Documents A, B and C of the spec's scenarios: the label site=1
    matches A and B. *)
Definition abc : list Doc :=
  [host "A" ["site=1"]; host "B" ["site=1"]; host "C" []].

(** A third host with the label of A and B, whose credentials are
    missing. *)
Definition docD : Doc :=
  {| dKind := "BareMetalHost"; dNamespace := "default"; dName := "D";
     dLabels := ["site=1"]; dAddress := Some "redfish+https://D";
     dCredentials := None |}.

Definition abd : list Doc :=
  [host "A" ["site=1"]; host "B" ["site=1"]; docD].

(** Two hosts of the same name in two namespaces. *)
Definition twins : list Doc :=
  [{| dKind := "BareMetalHost"; dNamespace := "ns-a"; dName := "node1";
      dLabels := ["site=1"]; dAddress := Some "redfish+https://a.node1";
      dCredentials := Some ("admin", "secret") |};
   {| dKind := "BareMetalHost"; dNamespace := "ns-b"; dName := "node1";
      dLabels := ["site=1"]; dAddress := Some "redfish+https://b.node1";
      dCredentials := Some ("admin", "secret") |}].

Definition redfishCfg : ManagementConfiguration :=
  {| Type_ := "redfish"; Insecure := false; UseProxy := false;
     SystemActionRetries := 2; SystemRebootDelay := 30 |}.

Definition bogusCfg : ManagementConfiguration :=
  {| Type_ := "bogus"; Insecure := false; UseProxy := false;
     SystemActionRetries := 2; SystemRebootDelay := 30 |}.

(** The three worlds, and values typed in them. *)
Definition ABC : Collaborators := world abc.

Definition ABD : Collaborators := world abd.

Definition TWINS : Collaborators := world twins.

Definition cfgRedfish : @config_Config ABC := Some redfishCfg.

Definition cfgBogus : @config_Config ABC := Some bogusCfg.

Definition cfgNone : @config_Config ABC := None.

Definition bundleABC : @document_Bundle ABC := abc.

Definition cfgABD : @config_Config ABD := Some redfishCfg.

Definition bundleABD : @document_Bundle ABD := abd.

Definition cfgTwins : @config_Config TWINS := Some redfishCfg.

Definition credentialsOfDFail : @Event ABD :=
  mkEvent (H:=ABD) (CallGetBMHBMCCredentials (H:=ABD) docD)
    (Some (ErrOther "missing BMC credentials")).

(** Hosts of an earlier and of a later selector, told apart by their
    addresses. *)
Definition hostAt (address name : string) : @baremetalHost ABC :=
  mkBaremetalHost (H:=ABC) ("redfish@" +:+ address) () address name "admin" "secret".

Definition oldA := hostAt "old-A" "A".

Definition oldB := hostAt "old-B" "B".

Definition newA := hostAt "new-A" "A".

Definition newB := hostAt "new-B" "B".

Definition newC := hostAt "new-C" "C".

End fixture.

(** * Properties *)

Section RemoteFacts.
Context `{Collaborators}.

(** ** Reconciliation *)

Lemma hostMap_of_fold (existingHosts : list baremetalHost) (m : gmap string bool) (n : string) :
  is_Some (foldl (λ hostMap host, <[HostName host := true]> hostMap) m existingHosts !! n)
  ↔ is_Some (m !! n) ∨ n ∈ HostName <$> existingHosts.
Proof.
  revert m. induction existingHosts as [|h hs IH]; intros m; simpl.
  - rewrite elem_of_nil. tauto.
  - rewrite IH, elem_of_cons. destruct (decide (HostName h = n)) as [->|Hne].
    + rewrite lookup_insert_eq. split; [intros _|intros _; left]; eauto.
    + rewrite lookup_insert_ne by done.
      split; [intros [?|?]; auto | intros [?|[?|?]]; auto; congruence].
Qed.

Lemma hostMap_of_lookup (existingHosts : list baremetalHost) (n : string) :
  is_Some (hostMap_of existingHosts !! n) ↔ n ∈ HostName <$> existingHosts.
Proof.
  unfold hostMap_of. rewrite hostMap_of_fold, lookup_empty.
  split; [intros [[? ?]|?]|]; auto. discriminate.
Qed.

Lemma reconcile_scan (m : gmap string bool) (newHosts acc : list baremetalHost) :
  foldl (λ reconciledHosts host,
           match m !! HostName host with
           | Some _ => reconciledHosts ++ [host]
           | None => reconciledHosts
           end) acc newHosts
  = acc ++ filter (λ h, is_Some (m !! HostName h)) newHosts.
Proof.
  revert acc. induction newHosts as [|h hs IH]; intros acc; simpl.
  - by rewrite app_nil_r.
  - rewrite IH, filter_cons. destruct (m !! HostName h) eqn:E.
    + rewrite decide_True by eauto. by rewrite <- app_assoc.
    + rewrite decide_False; [done|]. by intros [? ?].
Qed.

(** The first selector: an empty current list is replaced by the new hosts. *)
Lemma reconcileHosts_nil (newHosts : list baremetalHost) :
  reconcileHosts [] newHosts = newHosts.
Proof. reflexivity. Qed.

(** Otherwise the new hosts are filtered by the names of the current list. *)
Lemma reconcileHosts_filter (existingHosts newHosts : list baremetalHost) :
  existingHosts ≠ [] →
  reconcileHosts existingHosts newHosts
  = filter (λ h, HostName h ∈ HostName <$> existingHosts) newHosts.
Proof.
  intros Hne. unfold reconcileHosts.
  rewrite bool_decide_eq_false_2 by (destruct existingHosts; simpl; [done|lia]).
  rewrite reconcile_scan. simpl.
  apply list_filter_iff. intros h. apply hostMap_of_lookup.
Qed.

Lemma reconcileHosts_sublist (existingHosts newHosts : list baremetalHost) :
  reconcileHosts existingHosts newHosts `sublist_of` newHosts.
Proof.
  destruct existingHosts as [|e es]; [done|].
  rewrite reconcileHosts_filter by done. apply sublist_filter.
Qed.

(** ** Runs and their logs *)

Lemma faithful_nil {A} (r : error + A) : faithful r [].
Proof. intros ev e Hev. by apply elem_of_nil in Hev. Qed.

Lemma tidy_ret {S A} (π : S → Log) P (a : A) : tidy π P (mret a).
Proof.
  intros s. exists []. simpl. rewrite app_nil_r.
  split_and!; [done|apply faithful_nil|constructor].
Qed.

Lemma tidy_throw {S A} (π : S → Log) P (e : error) : tidy π P (mthrow (A:=A) e).
Proof.
  intros s. exists []. simpl. rewrite app_nil_r.
  split_and!; [done|apply faithful_nil|constructor].
Qed.

Lemma tidy_bind {S A B} (π : S → Log) P (c : M S A) (k : A → M S B) :
  tidy π P c → (∀ a, tidy π P (k a)) → tidy π P (c ≫= k).
Proof.
  intros Hc Hk s. unfold mbind, M_bind.
  destruct (Hc s) as (evs & Hl & Hf & HP).
  destruct (c s) as [[e|a] s'] eqn:E; simpl in *.
  - by exists evs.
  - destruct (Hk a s') as (evs' & Hl' & Hf' & HP').
    exists (evs ++ evs'). split_and!.
    + by rewrite Hl', Hl, app_assoc.
    + intros ev e [Hev|Hev]%elem_of_app Herr; [|by eapply Hf'].
      by specialize (Hf ev e Hev Herr).
    + by apply Forall_app.
Qed.

Lemma tidy_call {A} (P : Event → Prop) (c : Call) (r : error + A) :
  P (mkEvent c (err_of r)) → tidy id P (call c r).
Proof.
  intros HP l. exists [mkEvent c (err_of r)]. simpl. split_and!; [done| |by constructor].
  intros ev e ->%list_elem_of_singleton. done.
Qed.

Lemma tidy_io {A} P (c : M Log A) : tidy id P c → tidy log P (io c).
Proof.
  intros Hc s. destruct (Hc (log s)) as (evs & Hl & Hf & HP).
  exists evs. unfold io. by destruct (c (log s)) as [r l].
Qed.

Lemma tidy_getHosts P : tidy log P getHosts.
Proof.
  intros s. exists []. simpl. rewrite app_nil_r.
  split_and!; [done|apply faithful_nil|constructor].
Qed.

Lemma tidy_setHosts P hs : tidy log P (setHosts hs).
Proof.
  intros s. exists []. simpl. rewrite app_nil_r.
  split_and!; [done|apply faithful_nil|constructor].
Qed.

Lemma tidy_mono {S A} (π : S → Log) (P Q : Event → Prop) (c : M S A) :
  (∀ ev, P ev → Q ev) → tidy π P c → tidy π Q c.
Proof.
  intros HPQ Hc s. destruct (Hc s) as (evs & ? & ? & ?).
  exists evs. split_and!; [done..|]. by eapply Forall_impl.
Qed.

Create HintDb tidy.
#[local] Hint Resolve tidy_ret tidy_throw tidy_getHosts tidy_setHosts tidy_io : tidy.

Ltac tidy_step :=
  first
    [ apply tidy_bind; [|intros ?]
    | apply tidy_call; reflexivity
    | progress eauto with tidy
    | match goal with |- tidy _ _ (if ?b then _ else _) => destruct b end
    | match goal with |- tidy _ _ (let '(_, _) := ?p in _) => destruct p end ].

Lemma newBaremetalHost_tidy mgmtCfg hostDoc docBundle :
  tidy id selectionEvent (newBaremetalHost mgmtCfg hostDoc docBundle).
Proof. unfold newBaremetalHost. repeat tidy_step. Qed.

Lemma ByLabel_loop_tidy mgmtCfg docBundle docs matchingHosts :
  tidy id selectionEvent (ByLabel_loop mgmtCfg docBundle docs matchingHosts).
Proof.
  revert matchingHosts. induction docs as [|doc docs IH]; intros acc; simpl.
  - apply tidy_ret.
  - apply tidy_bind; [apply newBaremetalHost_tidy|intros h; apply IH].
Qed.

Lemma ByLabel_tidy label mgmtCfg docBundle :
  tidy log selectionEvent (ByLabel label mgmtCfg docBundle).
Proof.
  unfold ByLabel. simpl. apply tidy_bind; [apply tidy_io, tidy_call; reflexivity|].
  intros docs. destruct (bool_decide _); [apply tidy_throw|].
  apply tidy_bind; [apply tidy_io, ByLabel_loop_tidy|]. intros hs.
  repeat tidy_step.
Qed.

Lemma ByName_tidy name mgmtCfg docBundle :
  tidy log selectionEvent (ByName name mgmtCfg docBundle).
Proof.
  unfold ByName. simpl. apply tidy_bind; [apply tidy_io, tidy_call; reflexivity|].
  intros doc. apply tidy_bind; [apply tidy_io, newBaremetalHost_tidy|]. intros h.
  repeat tidy_step.
Qed.

(** ** Selection criteria *)

Ltac run_M :=
  unfold mbind, M_bind, mret, M_ret, mthrow, M_throw, io, call, getHosts, setHosts; simpl.

Lemma newBaremetalHost_result mgmtCfg hostDoc docBundle l :
  (newBaremetalHost mgmtCfg hostDoc docBundle l).1 = hostOf mgmtCfg docBundle hostDoc.
Proof.
  unfold hostOf, newBaremetalHost. run_M.
  destruct (GetBMHBMCAddress hostDoc) as [e|address]; [done|].
  destruct (GetBMHBMCCredentials hostDoc docBundle) as [e|[u p]]; [done|].
  destruct (bool_decide (Type_ mgmtCfg = redfish_ClientType)).
  { run_M. by destruct (redfish_NewClient _ _ _ _ _ _ _) as [e|[ctx cl]]. }
  destruct (bool_decide (Type_ mgmtCfg = redfishdell_ClientType)); [|done].
  run_M. by destruct (redfishdell_NewClient _ _ _ _ _ _ _) as [e|[ctx cl]].
Qed.

Lemma hostOf_name mgmtCfg docBundle hostDoc h :
  hostOf mgmtCfg docBundle hostDoc = inr h → HostName h = GetName hostDoc.
Proof.
  unfold hostOf, newBaremetalHost. run_M.
  destruct (GetBMHBMCAddress hostDoc) as [e|address]; [done|].
  destruct (GetBMHBMCCredentials hostDoc docBundle) as [e|[u p]]; [done|].
  destruct (bool_decide (Type_ mgmtCfg = redfish_ClientType)).
  { run_M. destruct (redfish_NewClient _ _ _ _ _ _ _) as [e|[ctx cl]]; [done|].
    simpl. by intros [= <-]. }
  destruct (bool_decide (Type_ mgmtCfg = redfishdell_ClientType)); [|done].
  run_M. destruct (redfishdell_NewClient _ _ _ _ _ _ _) as [e|[ctx cl]]; [done|].
  simpl. by intros [= <-].
Qed.

Lemma builtFrom_names mgmtCfg docBundle hs docs :
  builtFrom mgmtCfg docBundle hs docs → HostName <$> hs = GetName <$> docs.
Proof.
  induction 1 as [|h doc hs docs Hh _ IH]; simpl; [done|].
  f_equal; [by eapply hostOf_name|done].
Qed.

Lemma ByLabel_loop_inv mgmtCfg docBundle docs acc l hs' l' :
  ByLabel_loop mgmtCfg docBundle docs acc l = (inr hs', l') →
  ∃ hs, hs' = acc ++ hs ∧ builtFrom mgmtCfg docBundle hs docs.
Proof.
  revert acc l. induction docs as [|doc docs IH]; intros acc l; simpl.
  - unfold mret, M_ret. intros [= <- <-]. exists []. rewrite app_nil_r.
    split; [done|constructor].
  - unfold mbind, M_bind.
    pose proof (newBaremetalHost_result mgmtCfg doc docBundle l) as Hr.
    destruct (newBaremetalHost mgmtCfg doc docBundle l) as [[e|h] l1]; [done|].
    simpl in Hr. intros (hs & -> & Hhs)%IH.
    exists (h :: hs). rewrite <- app_assoc. split; [done|]. by constructor.
Qed.

Lemma ByLabel_loop_ok mgmtCfg docBundle docs acc l :
  Forall (λ doc, err_of (hostOf mgmtCfg docBundle doc) = None) docs →
  ∃ hs l', ByLabel_loop mgmtCfg docBundle docs acc l = (inr (acc ++ hs), l')
           ∧ builtFrom mgmtCfg docBundle hs docs.
Proof.
  intros Hok. revert acc l. induction Hok as [|doc docs Hd _ IH]; intros acc l; simpl.
  - exists [], l. rewrite app_nil_r. split; [done|constructor].
  - unfold mbind, M_bind.
    pose proof (newBaremetalHost_result mgmtCfg doc docBundle l) as Hr.
    destruct (newBaremetalHost mgmtCfg doc docBundle l) as [[e|h] l1]; simpl in Hr.
    { by rewrite <- Hr in Hd. }
    destruct (IH (acc ++ [h]) l1) as (hs & l' & Hrun & Hhs).
    exists (h :: hs), l'. rewrite Hrun, <- app_assoc. split; [done|]. by constructor.
Qed.

(** The loop ends at the first document whose host cannot be built, with
    the error of that document. *)
Lemma ByLabel_loop_fails mgmtCfg docBundle pre doc post e acc l :
  Forall (λ d, err_of (hostOf mgmtCfg docBundle d) = None) pre →
  hostOf mgmtCfg docBundle doc = inl e →
  ∃ l', ByLabel_loop mgmtCfg docBundle (pre ++ doc :: post) acc l = (inl e, l').
Proof.
  intros Hok Hdoc. revert acc l. induction Hok as [|d pre Hd _ IH]; intros acc l; simpl.
  - unfold mbind, M_bind.
    pose proof (newBaremetalHost_result mgmtCfg doc docBundle l) as Hr.
    destruct (newBaremetalHost mgmtCfg doc docBundle l) as [[e'|h] l1]; simpl in Hr.
    + rewrite Hdoc in Hr. injection Hr as ->. by exists l1.
    + by rewrite Hdoc in Hr.
  - unfold mbind, M_bind.
    pose proof (newBaremetalHost_result mgmtCfg d docBundle l) as Hr.
    destruct (newBaremetalHost mgmtCfg d docBundle l) as [[e'|h] l1]; simpl in Hr.
    { by rewrite <- Hr in Hd. }
    apply IH.
Qed.

(** [ByLabel] and [ByName], step by step. *)
Lemma ByLabel_unfold label mgmtCfg docBundle s :
  ByLabel label mgmtCfg docBundle s =
  let selector := labelSelector label in
  let l1 := log s ++ [mkEvent (CallSelect selector) (err_of (Select docBundle selector))] in
  match Select docBundle selector with
  | inl e => (inl e, {| mgr := mgr s; log := l1 |})
  | inr docs =>
      if bool_decide (length docs = 0)
      then (inl (ErrDocNotFound selector), {| mgr := mgr s; log := l1 |})
      else
        match ByLabel_loop mgmtCfg docBundle docs [] l1 with
        | (inl e, l2) => (inl e, {| mgr := mgr s; log := l2 |})
        | (inr hs, l2) =>
            (inr (), {| mgr := withHosts (mgr s) (reconcileHosts (Hosts (mgr s)) hs);
                        log := l2 |})
        end
  end.
Proof.
  unfold ByLabel, labelSelector. run_M.
  destruct (Select docBundle _) as [e|docs]; [done|]. simpl.
  destruct (bool_decide (length docs = 0)); [done|].
  by destruct (ByLabel_loop mgmtCfg docBundle docs [] _) as [[e|hs] l2].
Qed.

Lemma ByName_unfold name mgmtCfg docBundle s :
  ByName name mgmtCfg docBundle s =
  let selector := nameSelector name in
  let l1 := log s ++ [mkEvent (CallSelectOne selector) (err_of (SelectOne docBundle selector))] in
  match SelectOne docBundle selector with
  | inl e => (inl e, {| mgr := mgr s; log := l1 |})
  | inr doc =>
      match newBaremetalHost mgmtCfg doc docBundle l1 with
      | (inl e, l2) => (inl e, {| mgr := mgr s; log := l2 |})
      | (inr host, l2) =>
          (inr (), {| mgr := withHosts (mgr s) (reconcileHosts (Hosts (mgr s)) [host]);
                      log := l2 |})
      end
  end.
Proof.
  unfold ByName, nameSelector. run_M.
  destruct (SelectOne docBundle _) as [e|doc]; [done|]. simpl.
  by destruct (newBaremetalHost mgmtCfg doc docBundle _) as [[e|h] l2].
Qed.

(** A selector that fails leaves the manager as it found it. *)
Lemma selector_error_keeps_manager (c : Criterion) mgmtCfg docBundle s e s' :
  selectorOf c mgmtCfg docBundle s = (inl e, s') → mgr s' = mgr s.
Proof.
  destruct c as [name|label]; simpl.
  - rewrite ByName_unfold. simpl.
    destruct (SelectOne docBundle _) as [e0|doc]; [by intros [= _ <-]|].
    destruct (newBaremetalHost _ _ _ _) as [[e0|h] l2]; [by intros [= _ <-]|done].
  - rewrite ByLabel_unfold. simpl.
    destruct (Select docBundle _) as [e0|docs]; [by intros [= _ <-]|].
    destruct (bool_decide _); [by intros [= _ <-]|].
    destruct (ByLabel_loop _ _ _ _ _) as [[e0|hs] l2]; [by intros [= _ <-]|done].
Qed.

(** A selector that succeeds reconciles the hosts it built, one per
    matched document, with the current list. *)
Lemma selector_success (c : Criterion) mgmtCfg docBundle s s' :
  selectorOf c mgmtCfg docBundle s = (inr (), s') →
  ∃ docs hs,
    docs ≠ [] ∧ builtFrom mgmtCfg docBundle hs docs
    ∧ mgr s' = withHosts (mgr s) (reconcileHosts (Hosts (mgr s)) hs)
    ∧ match c with
      | byName name => ∃ doc, docs = [doc] ∧ SelectOne docBundle (nameSelector name) = inr doc
      | byLabel label => Select docBundle (labelSelector label) = inr docs
      end.
Proof.
  destruct c as [name|label]; simpl.
  - rewrite ByName_unfold. simpl.
    destruct (SelectOne docBundle _) as [e0|doc] eqn:Hsel; [done|].
    pose proof (newBaremetalHost_result mgmtCfg doc docBundle
                  (log s ++ [mkEvent (CallSelectOne (nameSelector name)) (err_of (inr doc))])) as Hr.
    destruct (newBaremetalHost _ _ _ _) as [[e0|h] l2]; [done|]. simpl in Hr.
    intros [= <-]. exists [doc], [h]. split_and!; [done| |done|by exists doc].
    by repeat constructor.
  - rewrite ByLabel_unfold. simpl.
    destruct (Select docBundle _) as [e0|docs] eqn:Hsel; [done|].
    destruct (bool_decide (length docs = 0)) eqn:Hlen; [done|].
    destruct (ByLabel_loop _ _ _ _ _) as [[e0|hs'] l2] eqn:Hloop; [done|].
    apply ByLabel_loop_inv in Hloop as (hs & -> & Hhs). simpl.
    intros [= <-]. exists docs, hs. split_and!; [|done..].
    intros ->. by rewrite bool_decide_eq_true_2 in Hlen.
Qed.

Lemma selectorOf_tidy (c : Criterion) mgmtCfg docBundle :
  tidy log selectionEvent (selectorOf c mgmtCfg docBundle).
Proof. destruct c; [apply ByName_tidy|apply ByLabel_tidy]. Qed.

Lemma runSelectors_tidy (cs : list Criterion) mgmtCfg docBundle :
  tidy log selectionEvent (runSelectors (selectorOf <$> cs) mgmtCfg docBundle).
Proof.
  induction cs as [|c cs IH]; simpl; [apply tidy_ret|].
  apply tidy_bind; [apply selectorOf_tidy|by intros _].
Qed.

(** ** The constructor *)

Lemma loadBundle_unfold cfg phaseName l :
  loadBundle cfg phaseName l =
  match CurrentContextManagementConfig cfg with
  | inl e => (inl e, l ++ [mkEvent CallCurrentContextManagementConfig (Some e)])
  | inr m =>
      match Validate m with
      | Some e =>
          (inl e, l ++ [mkEvent CallCurrentContextManagementConfig None;
                        mkEvent (CallValidate m) (Some e)])
      | None =>
          openBundle cfg phaseName m
            (l ++ [mkEvent CallCurrentContextManagementConfig None;
                   mkEvent (CallValidate m) None])
      end
  end.
Proof.
  unfold loadBundle, openBundle. unfold mbind at 1 2. unfold M_bind, call at 1 2. simpl.
  destruct (CurrentContextManagementConfig cfg) as [e|m]; [done|]. simpl.
  rewrite <- app_assoc. simpl. by destruct (Validate m).
Qed.

Lemma openBundle_tidy cfg phaseName m : tidy id bundleEvent (openBundle cfg phaseName m).
Proof. unfold openBundle. repeat tidy_step. Qed.

Lemma openBundle_config cfg phaseName m l m' docBundle l' :
  openBundle cfg phaseName m l = (inr (m', docBundle), l') → m' = m.
Proof.
  unfold openBundle. run_M.
  destruct (NewHelper cfg) as [e|helper]; [done|]. simpl.
  destruct (PhaseByID helper phaseName) as [e|phase]; [done|]. simpl.
  destruct (DocumentRoot phase) as [e|docRoot]; [done|]. simpl.
  destruct (NewBundleByPath docRoot) as [e|b]; [done|]. simpl.
  by intros [= <- _ _].
Qed.

(** A bundle is loaded only for a configuration that was resolved and
    passed validation. *)
Lemma loadBundle_validated cfg phaseName l m docBundle l' :
  loadBundle cfg phaseName l = (inr (m, docBundle), l') →
  CurrentContextManagementConfig cfg = inr m ∧ Validate m = None.
Proof.
  rewrite loadBundle_unfold.
  destruct (CurrentContextManagementConfig cfg) as [e|m0]; [done|].
  destruct (Validate m0) eqn:HV; [done|].
  by intros ->%openBundle_config.
Qed.

Lemma loadBundle_tidy cfg phaseName : tidy id (λ _, True) (loadBundle cfg phaseName).
Proof.
  unfold loadBundle. repeat (apply tidy_bind; [by apply tidy_call|intros ?]).
  apply tidy_ret.
Qed.

Lemma runSelectors_app (pre post : list HostSelector) managementCfg docBundle s :
  runSelectors (pre ++ post) managementCfg docBundle s =
  match runSelectors pre managementCfg docBundle s with
  | (inl e, s') => (inl e, s')
  | (inr _, s') => runSelectors post managementCfg docBundle s'
  end.
Proof.
  revert s. induction pre as [|addHost pre IH]; intros s; simpl; [done|].
  unfold mbind, M_bind. destruct (addHost managementCfg docBundle s) as [[e|[]] s1]; [done|].
  apply IH.
Qed.

(** A selector that fails ends the construction with its error and no
    manager. *)
Lemma NewManager_abort cfg phaseName (pre post : list HostSelector) addHost
    l0 managementCfg docBundle l s1 e s2 :
  loadBundle cfg phaseName l0 = (inr (managementCfg, docBundle), l) →
  runSelectors pre managementCfg docBundle (fresh managementCfg l) = (inr (), s1) →
  addHost managementCfg docBundle s1 = (inl e, s2) →
  NewManager cfg phaseName (pre ++ addHost :: post) l0 = ((None, Some e), log s2).
Proof.
  intros Hload Hpre Hsel. unfold NewManager. rewrite Hload.
  fold (fresh managementCfg l). rewrite runSelectors_app, Hpre. simpl.
  unfold mbind, M_bind. by rewrite Hsel.
Qed.

Lemma runSelectors_config (cs : list Criterion) managementCfg docBundle s s' :
  runSelectors (selectorOf <$> cs) managementCfg docBundle s = (inr (), s') →
  Config (mgr s') = Config (mgr s).
Proof.
  revert s. induction cs as [|c cs IH]; intros s; simpl.
  - unfold mret, M_ret. by intros [= <-].
  - unfold mbind, M_bind.
    destruct (selectorOf c managementCfg docBundle s) as [[e|[]] s1] eqn:Hc; [done|].
    intros ->%IH. apply selector_success in Hc as (docs & hs & _ & _ & -> & _). done.
Qed.

(** ** What the loop over the selectors computes *)

Lemma ByLabel_loop_result mgmtCfg docBundle docs acc l l' :
  (ByLabel_loop mgmtCfg docBundle docs acc l).1
  = (ByLabel_loop mgmtCfg docBundle docs acc l').1.
Proof.
  revert acc l l'. induction docs as [|doc docs IH]; intros acc l l'; simpl; [done|].
  unfold mbind, M_bind.
  pose proof (newBaremetalHost_result mgmtCfg doc docBundle l) as Hl.
  pose proof (newBaremetalHost_result mgmtCfg doc docBundle l') as Hl'.
  destruct (newBaremetalHost mgmtCfg doc docBundle l) as [r1 l1].
  destruct (newBaremetalHost mgmtCfg doc docBundle l') as [r2 l2].
  simpl in *. subst r1 r2. destruct (hostOf mgmtCfg docBundle doc) as [e|h]; [done|].
  apply IH.
Qed.

(** A selector is its match on the bundle followed by the reconciliation
    with the hosts of the manager. *)
Lemma selectorOf_run (c : Criterion) mgmtCfg docBundle s :
  ∃ l',
    selectorOf c mgmtCfg docBundle s =
    match matchedHosts c mgmtCfg docBundle with
    | inl e => (inl e, {| mgr := mgr s; log := l' |})
    | inr hs =>
        (inr (), {| mgr := withHosts (mgr s) (reconcileHosts (Hosts (mgr s)) hs); log := l' |})
    end.
Proof.
  destruct c as [name|label]; simpl.
  - rewrite ByName_unfold. simpl.
    destruct (SelectOne docBundle _) as [e|doc]; [eauto|].
    match goal with |- context [newBaremetalHost ?m ?d ?b ?l] =>
      pose proof (newBaremetalHost_result m d b l) as Hr;
      destruct (newBaremetalHost m d b l) as [[e|h] l2] end;
      simpl in Hr; rewrite <- Hr; eauto.
  - rewrite ByLabel_unfold. simpl.
    destruct (Select docBundle _) as [e|docs]; [eauto|].
    destruct (bool_decide (length docs = 0)); [eauto|].
    match goal with |- context [ByLabel_loop ?m ?b ?ds ?a ?l] =>
      pose proof (ByLabel_loop_result m b ds a l []) as Hr;
      destruct (ByLabel_loop m b ds a l) as [[e|hs] l2] end;
      simpl in Hr; rewrite <- Hr; eauto.
Qed.

Lemma matchNames_matchedHosts (c : Criterion) mgmtCfg docBundle :
  matchNames c mgmtCfg docBundle =
  match matchedHosts c mgmtCfg docBundle with
  | inl _ => None
  | inr hs => Some (HostName <$> hs)
  end.
Proof.
  unfold matchNames.
  destruct (selectorOf_run c mgmtCfg docBundle (fresh mgmtCfg [])) as [l' ->].
  by destruct (matchedHosts c mgmtCfg docBundle).
Qed.

Lemma fmap_filter_names (X : list string) (hs : list baremetalHost) :
  HostName <$> filter (λ h, HostName h ∈ X) hs = filter (λ n, n ∈ X) (HostName <$> hs).
Proof.
  induction hs as [|h hs IH]; [done|].
  rewrite fmap_cons, !filter_cons.
  destruct (decide (HostName h ∈ X)); [rewrite fmap_cons|]; by rewrite IH.
Qed.

Lemma reconcileHosts_names (existingHosts newHosts : list baremetalHost) :
  HostName <$> reconcileHosts existingHosts newHosts
  = reconcileNames (HostName <$> existingHosts) (HostName <$> newHosts).
Proof.
  unfold reconcileNames. destruct existingHosts as [|e es]; [done|].
  rewrite reconcileHosts_filter by done. rewrite bool_decide_eq_false_2 by done.
  apply fmap_filter_names.
Qed.

(** The names that the loop leaves are the match sets of the selectors,
    folded in order with [reconcileNames]. *)
Lemma runSelectors_names (cs : list Criterion) managementCfg docBundle s s' :
  runSelectors (selectorOf <$> cs) managementCfg docBundle s = (inr (), s') →
  ∃ Ms,
    Forall2 (λ c ms, matchNames c managementCfg docBundle = Some ms) cs Ms
    ∧ HostName <$> Hosts (mgr s') = foldl reconcileNames (HostName <$> Hosts (mgr s)) Ms.
Proof.
  revert s. induction cs as [|c cs IH]; intros s; simpl.
  - unfold mret, M_ret. intros [= <-]. exists []. split; [constructor|done].
  - unfold mbind, M_bind.
    destruct (selectorOf_run c managementCfg docBundle s) as [l' Hc]. rewrite Hc.
    pose proof (matchNames_matchedHosts c managementCfg docBundle) as Hm.
    destruct (matchedHosts c managementCfg docBundle) as [e|hs]; [done|].
    intros (Ms & HMs & Hnames)%IH. exists ((HostName <$> hs) :: Ms).
    split; [by constructor|]. rewrite Hnames. simpl. by rewrite reconcileHosts_names.
Qed.

(** As long as the running list is not empty when a further selector
    starts, the fold is the intersection of the match sets. *)
Lemma foldl_reconcileNames_intersection (Ms : list (list string)) (acc : list string) :
  (∀ i, i < length Ms → foldl reconcileNames acc (take i Ms) ≠ []) →
  ∀ n, n ∈ foldl reconcileNames acc Ms ↔ n ∈ acc ∧ ∀ ms, ms ∈ Ms → n ∈ ms.
Proof.
  revert acc. induction Ms as [|ms Ms IH]; intros acc Hrun n; simpl.
  - split; [intros Hn; split; [done|]|by intros [? _]]. by intros ms ?%elem_of_nil.
  - assert (acc ≠ []) as Hacc by (apply (Hrun 0); simpl; lia).
    rewrite IH.
    + unfold reconcileNames at 1. rewrite bool_decide_eq_false_2 by done.
      rewrite list_elem_of_filter. setoid_rewrite elem_of_cons. split.
      * intros [[Ha Hm] Hall]. split; [done|]. intros ms0 [->|Hin]; auto.
      * intros [Ha Hall]. split; [split; [done|]; apply Hall; by left|].
        intros ms0 Hin. apply Hall. by right.
    + intros i Hi. apply (Hrun (S i)). simpl. lia.
Qed.

(** The names of the manager that [NewManager] returns without an error
    are the intersection of the match sets of the selectors, provided the
    running list is not empty when a second or later selector starts. *)
Lemma NewManager_names_intersection_while_not_empty cfg phaseName (cs : list Criterion)
    l0 manager l :
  NewManager cfg phaseName (selectorOf <$> cs) l0 = ((Some manager, None), l) →
  ∃ docBundle Ms,
    Forall2 (λ c ms, matchNames c (Config manager) docBundle = Some ms) cs Ms
    ∧ HostName <$> Hosts manager = foldl reconcileNames [] Ms
    ∧ Ms ≠ []
    ∧ ((∀ i, 0 < i < length Ms → foldl reconcileNames [] (take i Ms) ≠ []) →
       ∀ n, n ∈ HostName <$> Hosts manager ↔ ∀ ms, ms ∈ Ms → n ∈ ms).
Proof.
  unfold NewManager.
  destruct (loadBundle cfg phaseName l0) as [[e0|[m b]] l1] eqn:Hload; [done|].
  destruct (runSelectors _ _ _ _) as [[e1|[]] s] eqn:Hrun; [done|].
  destruct (bool_decide (length (Hosts (mgr s)) = 0)) eqn:Hlen; [done|].
  intros [= <- <-].
  pose proof (runSelectors_config _ _ _ _ _ Hrun) as Hcfg. simpl in Hcfg. rewrite Hcfg.
  apply runSelectors_names in Hrun as (Ms & HMs & Hnames). simpl in Hnames.
  exists b, Ms. split_and!; [done..| |].
  - intros ->. simpl in Hnames. apply fmap_nil_inv in Hnames.
    rewrite Hnames in Hlen. by rewrite bool_decide_eq_true_2 in Hlen.
  - intros Hrunning n. rewrite Hnames. destruct Ms as [|ms Ms]; simpl.
    { split; [by intros ?%elem_of_nil|]. intros _.
      simpl in Hnames. apply fmap_nil_inv in Hnames.
      rewrite Hnames in Hlen. by rewrite bool_decide_eq_true_2 in Hlen. }
    rewrite foldl_reconcileNames_intersection.
    + setoid_rewrite elem_of_cons. split.
      * intros [Hm Hall] ms0 [->|Hin]; auto.
      * intros Hall. split; [apply Hall; by left|].
        intros ms0 Hin. apply Hall. by right.
    + intros i Hi. apply (Hrunning (S i)). simpl. lia.
Qed.

(** ** Where the management type is checked *)

(** Inside [newBaremetalHost] the switch on the type comes last: for a
    type that is not recognized the address and the credentials of the
    document are resolved first. *)
Lemma newBaremetalHost_unknown_type_after_resolution mgmtCfg hostDoc docBundle l
    address username password :
  GetBMHBMCAddress hostDoc = inr address →
  GetBMHBMCCredentials hostDoc docBundle = inr (username, password) →
  recognized (Type_ mgmtCfg) = false →
  newBaremetalHost mgmtCfg hostDoc docBundle l
  = (inl (ErrUnknownManagementType (Type_ mgmtCfg)),
     l ++ [mkEvent (CallGetBMHBMCAddress hostDoc) None;
           mkEvent (CallGetBMHBMCCredentials hostDoc) None]).
Proof.
  intros Ha Hc [Hr Hd]%orb_false_elim. unfold newBaremetalHost. run_M.
  rewrite Ha, Hc, Hr, Hd. simpl. by rewrite <- app_assoc.
Qed.

(** [NewManager] never gets there: the selectors only run for a
    configuration that passed [Validate], whose type is recognized. *)
Lemma loadBundle_recognized cfg phaseName l m docBundle l' :
  loadBundle cfg phaseName l = (inr (m, docBundle), l') → recognized (Type_ m) = true.
Proof.
  intros [_ Hval]%loadBundle_validated. unfold Validate in Hval.
  by destruct (recognized (Type_ m)).
Qed.

(** ** The claims *)

(** C10. In a reconciliation step whose existing host list is not empty,
    the result is the newer selector's host list filtered by the names of
    the existing list: the entries that survive are the newer selector's
    own values (a sublist of its list, the existing entries of the same
    names are dropped), in the order of the newer selector's list. *)
Theorem reconcileHosts_keeps_newer_hosts_in_newer_order
    (existingHosts newHosts : list baremetalHost) :
  existingHosts ≠ [] →
  reconcileHosts existingHosts newHosts
  = filter (λ h, HostName h ∈ HostName <$> existingHosts) newHosts
  ∧ reconcileHosts existingHosts newHosts `sublist_of` newHosts.
Proof.
  intros Hne. split; [by apply reconcileHosts_filter|apply reconcileHosts_sublist].
Qed.

(** C4. When validation, bundle loading and every selector succeed and the
    host list is empty after the last selector, [NewManager] returns the
    error [ErrNoHostsFound], which is not a document-not-found error; the
    model is a total function, it returns and does not get stuck. *)
Theorem NewManager_no_hosts_found cfg phaseName (hosts : list HostSelector)
    l0 managementCfg docBundle l s :
  loadBundle cfg phaseName l0 = (inr (managementCfg, docBundle), l) →
  runSelectors hosts managementCfg docBundle (fresh managementCfg l) = (inr (), s) →
  Hosts (mgr s) = [] →
  NewManager cfg phaseName hosts l0 = ((Some (mgr s), Some ErrNoHostsFound), log s)
  ∧ ∀ selector, ErrNoHostsFound ≠ ErrDocNotFound selector.
Proof.
  intros Hload Hrun Hnil. split; [|done].
  unfold NewManager. rewrite Hload. fold (fresh managementCfg l).
  by rewrite Hrun, Hnil.
Qed.

(** C2. For a management configuration whose type is neither the redfish
    nor the redfish-dell client type, [NewManager] fails with the unknown
    management type error, whatever the selectors; the log of the run
    holds the resolution and the validation of the configuration and
    nothing else: no selection, no address or credential resolution, no
    client construction. *)
Theorem NewManager_unknown_management_type cfg phaseName (hosts : list HostSelector) m :
  CurrentContextManagementConfig cfg = inr m →
  Type_ m ≠ redfish_ClientType →
  Type_ m ≠ redfishdell_ClientType →
  NewManager cfg phaseName hosts []
  = ((None, Some (ErrUnknownManagementType (Type_ m))),
     [mkEvent CallCurrentContextManagementConfig None;
      mkEvent (CallValidate m) (Some (ErrUnknownManagementType (Type_ m)))])
  ∧ Forall (λ ev, isSelectionCall (ev_call ev) = false ∧ isBundleCall (ev_call ev) = false)
      (NewManager cfg phaseName hosts []).2.
Proof.
  intros Hcfg Hr Hd.
  assert (NewManager cfg phaseName hosts []
          = ((None, Some (ErrUnknownManagementType (Type_ m))),
             [mkEvent CallCurrentContextManagementConfig None;
              mkEvent (CallValidate m) (Some (ErrUnknownManagementType (Type_ m)))])) as Heq.
  { unfold NewManager. rewrite loadBundle_unfold, Hcfg. unfold Validate, recognized.
    by rewrite !bool_decide_eq_false_2. }
  split; [done|]. rewrite Heq. simpl. by repeat constructor.
Qed.

(** C9. The failure paths of [NewManager]: a failure before the loop and a
    failing selector return a nil manager with the error; the empty host
    list after the loop returns the manager, with its validated
    configuration and no hosts, together with [ErrNoHostsFound]; and a
    manager returned together with an error can only come from there. *)
Theorem NewManager_failure_paths cfg phaseName (cs : list Criterion) l0 :
  (∀ e l, loadBundle cfg phaseName l0 = (inl e, l) →
     NewManager cfg phaseName (selectorOf <$> cs) l0 = ((None, Some e), l))
  ∧ (∀ m docBundle l e s,
       loadBundle cfg phaseName l0 = (inr (m, docBundle), l) →
       runSelectors (selectorOf <$> cs) m docBundle (fresh m l) = (inl e, s) →
       NewManager cfg phaseName (selectorOf <$> cs) l0 = ((None, Some e), log s))
  ∧ (∀ m docBundle l s,
       loadBundle cfg phaseName l0 = (inr (m, docBundle), l) →
       runSelectors (selectorOf <$> cs) m docBundle (fresh m l) = (inr (), s) →
       Hosts (mgr s) = [] →
       NewManager cfg phaseName (selectorOf <$> cs) l0
       = ((Some {| Config := m; Hosts := [] |}, Some ErrNoHostsFound), log s)
       ∧ CurrentContextManagementConfig cfg = inr m ∧ Validate m = None)
  ∧ (∀ manager e l,
       NewManager cfg phaseName (selectorOf <$> cs) l0 = ((Some manager, Some e), l) →
       e = ErrNoHostsFound ∧ Hosts manager = []
       ∧ ∃ docBundle l1 s,
           loadBundle cfg phaseName l0 = (inr (Config manager, docBundle), l1)
           ∧ runSelectors (selectorOf <$> cs) (Config manager) docBundle
               (fresh (Config manager) l1) = (inr (), s)
           ∧ mgr s = manager).
Proof.
  split_and!.
  - intros e l Hload. unfold NewManager. by rewrite Hload.
  - intros m b l e s Hload Hrun. unfold NewManager. rewrite Hload.
    fold (fresh m l). by rewrite Hrun.
  - intros m b l s Hload Hrun Hnil.
    pose proof (runSelectors_config _ _ _ _ _ Hrun) as Hcfg. simpl in Hcfg.
    split; [|by eapply loadBundle_validated].
    unfold NewManager. rewrite Hload. fold (fresh m l). rewrite Hrun, Hnil. simpl.
    destruct (mgr s) as [c hs]. simpl in *. by subst.
  - intros manager e l. unfold NewManager.
    destruct (loadBundle cfg phaseName l0) as [[e0|[m b]] l1] eqn:Hload; [done|].
    fold (fresh m l1).
    destruct (runSelectors _ _ _ _) as [[e1|[]] s] eqn:Hrun; [done|].
    pose proof (runSelectors_config _ _ _ _ _ Hrun) as Hcfg. simpl in Hcfg.
    destruct (bool_decide (length (Hosts (mgr s)) = 0)) eqn:Hlen; [|done].
    intros [= <- <- <-]. apply bool_decide_eq_true_1, nil_length_inv in Hlen.
    split_and!; [done..|]. exists b, l1, s. by rewrite Hcfg.
Qed.

Lemma NewManager_faithful cfg phaseName (cs : list Criterion) ev e :
  ev ∈ (NewManager cfg phaseName (selectorOf <$> cs) []).2 →
  ev_err ev = Some e →
  (NewManager cfg phaseName (selectorOf <$> cs) []).1 = (None, Some e).
Proof.
  unfold NewManager.
  destruct (loadBundle_tidy cfg phaseName []) as (evs1 & Hl1 & Hf1 & _).
  destruct (loadBundle cfg phaseName []) as [[e0|[m b]] l1]; simpl in *; subst l1.
  { intros Hev Herr. specialize (Hf1 ev e Hev Herr). by injection Hf1 as ->. }
  destruct (runSelectors_tidy cs m b {| mgr := {| Config := m; Hosts := [] |}; log := evs1 |})
    as (evs2 & Hl2 & Hf2 & _).
  destruct (runSelectors _ _ _ _) as [[e1|[]] s1]; simpl in *.
  - rewrite Hl2. intros [Hev|Hev]%elem_of_app Herr.
    + by specialize (Hf1 ev e Hev Herr).
    + specialize (Hf2 ev e Hev Herr). by injection Hf2 as ->.
  - intros Hev Herr. exfalso.
    assert (ev ∈ evs1 ++ evs2) as [Hin|Hin]%elem_of_app.
    { rewrite <- Hl2. by destruct (bool_decide _). }
    + by specialize (Hf1 ev e Hin Herr).
    + by specialize (Hf2 ev e Hin Herr).
Qed.

(** C8. When the resolution of the BMC address or of the credentials of a
    matched document fails in the run of a selector, the selector returns
    that error and the manager is as it was before the selector ran (the
    hosts built so far in this run are dropped); and a run of [NewManager]
    in which such a failure occurs returns that error and no manager. *)
Theorem resolution_failure_aborts hostDoc e ev :
  resolutionFailure hostDoc e ev →
  (∀ (c : Criterion) mgmtCfg docBundle s evs,
     log (selectorOf c mgmtCfg docBundle s).2 = log s ++ evs →
     ev ∈ evs →
     (selectorOf c mgmtCfg docBundle s).1 = inl e
     ∧ mgr (selectorOf c mgmtCfg docBundle s).2 = mgr s)
  ∧ (∀ cfg phaseName (cs : list Criterion),
       ev ∈ (NewManager cfg phaseName (selectorOf <$> cs) []).2 →
       (NewManager cfg phaseName (selectorOf <$> cs) []).1 = (None, Some e)).
Proof.
  intros [Herr _]. split.
  - intros c mgmtCfg docBundle s evs Hlog Hev.
    destruct (selectorOf_tidy c mgmtCfg docBundle s) as (evs' & Hl & Hf & _).
    rewrite Hl in Hlog. apply app_inv_head in Hlog as ->.
    specialize (Hf ev e Hev Herr).
    destruct (selectorOf c mgmtCfg docBundle s) as [[e0|[]] s'] eqn:Hrun; [|done].
    simpl in *. injection Hf as ->. split; [done|].
    by eapply selector_error_keeps_manager.
  - intros cfg phaseName cs Hev. by eapply NewManager_faithful.
Qed.

(** C6, amended. [ByLabel] against the documents that the label selects
    among the documents of kind BareMetalHost: none is the
    document-not-found error, which ends the construction of the manager;
    k > 0 documents give k hosts, one per document and named after it, in
    order, which are reconciled with the current list (and are the list
    when the current one is empty), provided that a host can be built for
    every one of them; when the host of some selected document cannot be
    built, the selector returns the error of the first such document and
    the manager keeps the hosts it had: no host is handed over, whatever
    k is. *)
Theorem ByLabel_hosts_per_document label mgmtCfg docBundle s docs :
  Select docBundle (labelSelector label) = inr docs →
  (docs = [] →
     (∃ l', ByLabel label mgmtCfg docBundle s
            = (inl (ErrDocNotFound (labelSelector label)), {| mgr := mgr s; log := l' |}))
     ∧ ∀ cfg phaseName pre post l0 l,
         loadBundle cfg phaseName l0 = (inr (mgmtCfg, docBundle), l) →
         runSelectors pre mgmtCfg docBundle (fresh mgmtCfg l) = (inr (), s) →
         (NewManager cfg phaseName (pre ++ ByLabel label :: post) l0).1
         = (None, Some (ErrDocNotFound (labelSelector label))))
  ∧ (docs ≠ [] →
     (∀ doc, doc ∈ docs → err_of (hostOf mgmtCfg docBundle doc) = None) →
     ∃ hs l',
       ByLabel label mgmtCfg docBundle s
       = (inr (), {| mgr := withHosts (mgr s) (reconcileHosts (Hosts (mgr s)) hs); log := l' |})
       ∧ length hs = length docs
       ∧ builtFrom mgmtCfg docBundle hs docs
       ∧ HostName <$> hs = GetName <$> docs
       ∧ (Hosts (mgr s) = [] → reconcileHosts (Hosts (mgr s)) hs = hs))
  ∧ (∀ pre doc post e,
       docs = pre ++ doc :: post →
       (∀ d, d ∈ pre → err_of (hostOf mgmtCfg docBundle d) = None) →
       hostOf mgmtCfg docBundle doc = inl e →
       ∃ l', ByLabel label mgmtCfg docBundle s = (inl e, {| mgr := mgr s; log := l' |})).
Proof.
  intros Hsel. split_and!.
  - intros ->.
    assert (∃ l', ByLabel label mgmtCfg docBundle s
                  = (inl (ErrDocNotFound (labelSelector label)), {| mgr := mgr s; log := l' |}))
      as [l' Hrun].
    { rewrite ByLabel_unfold. simpl. rewrite Hsel. simpl. eauto. }
    split; [by exists l'|]. intros cfg phaseName pre post l0 l Hload Hpre.
    by rewrite (NewManager_abort _ _ _ _ _ _ _ _ _ _ _ _ Hload Hpre Hrun).
  - intros Hne Hok. rewrite ByLabel_unfold. simpl. rewrite Hsel.
    rewrite bool_decide_eq_false_2 by (by destruct docs).
    apply Forall_forall in Hok.
    destruct (ByLabel_loop_ok mgmtCfg docBundle docs []
                (log s ++ [mkEvent (CallSelect (labelSelector label)) (err_of (inr docs))]) Hok)
      as (hs & l' & Hrun & Hhs).
    rewrite Hrun. simpl. exists hs, l'. split_and!; [done| |done| |].
    + by eapply Forall2_length.
    + by apply (builtFrom_names mgmtCfg docBundle).
    + by intros ->.
  - intros pre doc post e -> Hok Hdoc. rewrite ByLabel_unfold. simpl. rewrite Hsel.
    rewrite bool_decide_eq_false_2 by (by destruct pre).
    apply Forall_forall in Hok.
    destruct (ByLabel_loop_fails mgmtCfg docBundle pre doc post e []
                (log s ++ [mkEvent (CallSelect (labelSelector label))
                             (err_of (inr (pre ++ doc :: post)))]) Hok Hdoc)
      as [l' Hrun].
    rewrite Hrun. by exists l'.
Qed.

(** C5, amended. [ByName] against the documents that the name selects
    among the documents of kind BareMetalHost: none is the
    document-not-found error, which ends the construction of the manager;
    exactly one gives one host named after it, which is reconciled with
    the current list (and is the list when the current one is empty),
    provided that a host can be built for it; when the host cannot be
    built, the selector returns that error, the manager keeps the hosts it
    had, and the construction of the manager ends with that error. *)
Theorem ByName_zero_or_one_document name mgmtCfg docBundle s :
  (Select docBundle (nameSelector name) = inr [] →
     (∃ l', ByName name mgmtCfg docBundle s
            = (inl (ErrDocNotFound (nameSelector name)), {| mgr := mgr s; log := l' |}))
     ∧ ∀ cfg phaseName pre post l0 l,
         loadBundle cfg phaseName l0 = (inr (mgmtCfg, docBundle), l) →
         runSelectors pre mgmtCfg docBundle (fresh mgmtCfg l) = (inr (), s) →
         (NewManager cfg phaseName (pre ++ ByName name :: post) l0).1
         = (None, Some (ErrDocNotFound (nameSelector name))))
  ∧ (∀ doc, Select docBundle (nameSelector name) = inr [doc] →
       (∀ host, hostOf mgmtCfg docBundle doc = inr host →
          HostName host = GetName doc
          ∧ (∃ l', ByName name mgmtCfg docBundle s
                   = (inr (), {| mgr := withHosts (mgr s) (reconcileHosts (Hosts (mgr s)) [host]);
                                 log := l' |}))
          ∧ (Hosts (mgr s) = [] → reconcileHosts (Hosts (mgr s)) [host] = [host]))
       ∧ (∀ e, hostOf mgmtCfg docBundle doc = inl e →
            (∃ l', ByName name mgmtCfg docBundle s = (inl e, {| mgr := mgr s; log := l' |}))
            ∧ ∀ cfg phaseName pre post l0 l,
                loadBundle cfg phaseName l0 = (inr (mgmtCfg, docBundle), l) →
                runSelectors pre mgmtCfg docBundle (fresh mgmtCfg l) = (inr (), s) →
                (NewManager cfg phaseName (pre ++ ByName name :: post) l0).1 = (None, Some e))).
Proof.
  split.
  - intros Hsel.
    assert (∃ l', ByName name mgmtCfg docBundle s
                  = (inl (ErrDocNotFound (nameSelector name)), {| mgr := mgr s; log := l' |}))
      as [l' Hrun].
    { rewrite ByName_unfold. simpl. unfold SelectOne. rewrite Hsel. simpl. eauto. }
    split; [by exists l'|]. intros cfg phaseName pre post l0 l Hload Hpre.
    by rewrite (NewManager_abort _ _ _ _ _ _ _ _ _ _ _ _ Hload Hpre Hrun).
  - intros doc Hsel.
    pose proof (ByName_unfold name mgmtCfg docBundle s) as Hun. simpl in Hun.
    unfold SelectOne in Hun. rewrite Hsel in Hun. simpl in Hun.
    pose proof (newBaremetalHost_result mgmtCfg doc docBundle
                  (log s ++ [mkEvent (CallSelectOne (nameSelector name)) None])) as Hr.
    destruct (newBaremetalHost _ _ _ _) as [[e0|h] l2]; simpl in Hr; split.
    + intros host Hhost. by rewrite Hhost in Hr.
    + intros e He. rewrite He in Hr. injection Hr as ->.
      split; [by exists l2|]. intros cfg phaseName pre post l0 l Hload Hpre.
      by rewrite (NewManager_abort _ _ _ _ _ _ _ _ _ _ _ _ Hload Hpre Hun).
    + intros host Hhost. rewrite Hhost in Hr. injection Hr as ->.
      split_and!; [by apply (hostOf_name mgmtCfg docBundle)|by exists l2|by intros ->].
    + intros e He. by rewrite He in Hr.
Qed.

Lemma runSelectors_NoDup (cs : list Criterion) managementCfg docBundle s s' :
  (∀ label docs, Select docBundle (labelSelector label) = inr docs → NoDup (GetName <$> docs)) →
  NoDup (HostName <$> Hosts (mgr s)) →
  runSelectors (selectorOf <$> cs) managementCfg docBundle s = (inr (), s') →
  NoDup (HostName <$> Hosts (mgr s')).
Proof.
  intros Hdocs. revert s. induction cs as [|c cs IH]; intros s Hs; simpl.
  - unfold mret, M_ret. by intros [= <-].
  - unfold mbind, M_bind.
    destruct (selectorOf c managementCfg docBundle s) as [[e|[]] s1] eqn:Hc; [done|].
    apply IH. apply selector_success in Hc as (docs & hs & _ & Hhs & -> & Hc). simpl.
    apply (builtFrom_names managementCfg docBundle) in Hhs.
    apply (sublist_NoDup _ (HostName <$> hs)); [|apply fmap_sublist, reconcileHosts_sublist].
    rewrite Hhs. destruct c as [name|label].
    + destruct Hc as (doc & -> & _). apply NoDup_singleton.
    + by eapply Hdocs.
Qed.

(** C3, amended. Reconciliation passes on the newer selector's hosts and
    removes no duplicates.  The hosts of the manager that [NewManager]
    returns have pairwise distinct names when, in the bundle of the phase,
    no label selects two documents of the same name. *)
Theorem NewManager_hosts_unique_when_documents_are cfg phaseName (cs : list Criterion)
    l0 manager l :
  (∀ m docBundle l1 label docs,
     loadBundle cfg phaseName l0 = (inr (m, docBundle), l1) →
     Select docBundle (labelSelector label) = inr docs →
     NoDup (GetName <$> docs)) →
  NewManager cfg phaseName (selectorOf <$> cs) l0 = ((Some manager, None), l) →
  NoDup (HostName <$> Hosts manager).
Proof.
  intros Hdocs. unfold NewManager.
  destruct (loadBundle cfg phaseName l0) as [[e0|[m b]] l1] eqn:Hload; [done|].
  destruct (runSelectors _ _ _ _) as [[e1|[]] s] eqn:Hrun; [done|].
  destruct (bool_decide _); [done|]. intros [= <- <-].
  refine (runSelectors_NoDup cs m b _ s _ _ Hrun); [|apply NoDup_nil_2].
  intros label docs. by eapply Hdocs.
Qed.

Lemma laterEvent_not_config ev :
  laterEvent ev →
  isResolveCall (ev_call ev) = false ∧ isValidateCall (ev_call ev) = false.
Proof. unfold laterEvent. by destruct (ev_call ev). Qed.

Lemma laterEvent_counts (rest : list Event) :
  Forall laterEvent rest → resolutions rest = 0 ∧ validations rest = 0.
Proof.
  unfold resolutions, validations.
  induction 1 as [|ev rest [Hr Hv]%laterEvent_not_config _ [IHr IHv]]; simpl; [done|].
  by rewrite Hr, Hv.
Qed.

(** After a successful validation the run only loads and selects. *)
Lemma NewManager_after_validation cfg phaseName (cs : list Criterion) m l :
  CurrentContextManagementConfig cfg = inr m →
  Validate m = None →
  ∃ rest,
    (NewManager cfg phaseName (selectorOf <$> cs) l).2
    = (l ++ [mkEvent CallCurrentContextManagementConfig None; mkEvent (CallValidate m) None])
      ++ rest
    ∧ Forall laterEvent rest.
Proof.
  intros Hcfg Hval. unfold NewManager. rewrite loadBundle_unfold, Hcfg, Hval.
  set (l2 := l ++ _).
  destruct (openBundle_tidy cfg phaseName m l2) as (evs1 & Hl1 & _ & HP1).
  assert (Forall laterEvent evs1) as HL1.
  { eapply Forall_impl; [exact HP1|]. intros ev Hev. unfold laterEvent. by rewrite Hev. }
  destruct (openBundle cfg phaseName m l2) as [[e0|[m' b]] l1]; simpl in Hl1; subst l1.
  { by exists evs1. }
  destruct (runSelectors_tidy cs m' b {| mgr := {| Config := m'; Hosts := [] |}; log := l2 ++ evs1 |})
    as (evs2 & Hl2 & _ & HP2).
  assert (Forall laterEvent (evs1 ++ evs2)) as HL2.
  { apply Forall_app. split; [done|]. eapply Forall_impl; [exact HP2|].
    intros ev Hev. unfold laterEvent. rewrite Hev. by destruct (isBundleCall _). }
  exists (evs1 ++ evs2). split; [|done].
  destruct (runSelectors _ _ _ _) as [[e1|[]] s1]; simpl in *.
  - by rewrite Hl2, app_assoc.
  - destruct (bool_decide _); simpl; by rewrite Hl2, app_assoc.
Qed.

(** When the configuration cannot be resolved, [NewManager] returns that
    error at once: nothing is validated, loaded or selected. *)
Lemma NewManager_unresolved cfg phaseName (hosts : list HostSelector) e :
  CurrentContextManagementConfig cfg = inl e →
  NewManager cfg phaseName hosts []
  = ((None, Some e), [mkEvent CallCurrentContextManagementConfig (Some e)]).
Proof. intros Hcfg. unfold NewManager. by rewrite loadBundle_unfold, Hcfg. Qed.

(** When the configuration is resolved, it is resolved once and validated
    once, first of all calls. *)
Lemma NewManager_resolved cfg phaseName (cs : list Criterion) m :
  CurrentContextManagementConfig cfg = inr m →
  resolutions (NewManager cfg phaseName (selectorOf <$> cs) []).2 = 1
  ∧ validations (NewManager cfg phaseName (selectorOf <$> cs) []).2 = 1
  ∧ ∃ rest,
      (NewManager cfg phaseName (selectorOf <$> cs) []).2
      = mkEvent CallCurrentContextManagementConfig None
        :: mkEvent (CallValidate m) (Validate m) :: rest
      ∧ Forall laterEvent rest
      ∧ ∀ e, Validate m = Some e →
             rest = [] ∧ (NewManager cfg phaseName (selectorOf <$> cs) []).1 = (None, Some e).
Proof.
  intros Hcfg. destruct (Validate m) as [e|] eqn:Hval.
  { unfold NewManager. rewrite loadBundle_unfold, Hcfg, Hval. simpl.
    split_and!; [done..|]. exists []. split_and!; [done|constructor|].
    by intros ? [= <-]. }
  destruct (NewManager_after_validation cfg phaseName cs m [] Hcfg Hval) as (rest & Hlog & Hrest).
  simpl in Hlog. rewrite Hlog.
  destruct (laterEvent_counts rest Hrest) as [Hr Hv].
  unfold resolutions, validations in *. simpl. rewrite Hr, Hv.
  split_and!; [done..|]. exists rest. by split_and!.
Qed.

(** C7, amended. In every run of [NewManager] the management configuration
    is resolved once.  When the resolution succeeds, the configuration is
    validated once: the log of the run starts with the resolution and the
    validation, and every other call, which loads the bundle or belongs to
    a selector, comes later; when validation fails, [NewManager] returns
    that error and makes no further call.  When the resolution fails,
    [NewManager] returns that error at once: the configuration is not
    validated, and nothing is loaded or selected. *)
Theorem NewManager_validates_once_before_loading cfg phaseName (cs : list Criterion) :
  resolutions (NewManager cfg phaseName (selectorOf <$> cs) []).2 = 1
  ∧ (∀ m, CurrentContextManagementConfig cfg = inr m →
       validations (NewManager cfg phaseName (selectorOf <$> cs) []).2 = 1
       ∧ ∃ rest,
           (NewManager cfg phaseName (selectorOf <$> cs) []).2
           = mkEvent CallCurrentContextManagementConfig None
             :: mkEvent (CallValidate m) (Validate m) :: rest
           ∧ Forall laterEvent rest
           ∧ ∀ e, Validate m = Some e →
                  rest = []
                  ∧ (NewManager cfg phaseName (selectorOf <$> cs) []).1 = (None, Some e))
  ∧ (∀ e, CurrentContextManagementConfig cfg = inl e →
       NewManager cfg phaseName (selectorOf <$> cs) []
       = ((None, Some e), [mkEvent CallCurrentContextManagementConfig (Some e)])
       ∧ validations (NewManager cfg phaseName (selectorOf <$> cs) []).2 = 0).
Proof.
  split_and!.
  - destruct (CurrentContextManagementConfig cfg) as [e|m] eqn:Hcfg.
    + by rewrite (NewManager_unresolved _ _ _ _ Hcfg).
    + by destruct (NewManager_resolved cfg phaseName cs m Hcfg) as [Hr _].
  - intros m Hcfg. by destruct (NewManager_resolved cfg phaseName cs m Hcfg) as (_ & Hv & Hrest).
  - intros e Hcfg. by rewrite (NewManager_unresolved _ _ _ _ Hcfg).
Qed.

End RemoteFacts.

(** ** The claims on the fixture *)

Section Fixture.
Import fixture.

#[local] Existing Instance ABC.

(** C1. Three selectors by name, for three hosts A, B and C that all
    exist: each selector succeeds and matches its own host only, so the
    three match sets have no name in common; the manager that
    [NewManager] returns, without an error, holds host C. *)
Theorem NewManager_three_disjoint_names_keeps_the_last :
  matchNames (byName "A") redfishCfg bundleABC = Some ["A"]
  ∧ matchNames (byName "B") redfishCfg bundleABC = Some ["B"]
  ∧ matchNames (byName "C") redfishCfg bundleABC = Some ["C"]
  ∧ (∀ n : string, ¬ (n ∈ ["A"] ∧ n ∈ ["B"] ∧ n ∈ ["C"]))
  ∧ ∃ manager l,
      NewManager cfgRedfish "phaseX" (selectorOf <$> [byName "A"; byName "B"; byName "C"]) []
      = ((Some manager, None), l)
      ∧ HostName <$> Hosts manager = ["C"].
Proof.
  split_and!; [by vm_compute..| |].
  - intros n (Ha%list_elem_of_singleton & Hb%list_elem_of_singleton & _). by subst.
  - eexists _, _. split; [vm_compute; reflexivity|]. by vm_compute.
Qed.

(** The spec's scenario: the label site=1 matches A and B, and the
    selectors by label site=1 then by name B leave host B. *)
Example NewManager_label_then_name :
  ∃ manager l,
    NewManager cfgRedfish "phaseX" [ByLabel "site=1"; ByName "B"] []
    = ((Some manager, None), l)
    ∧ HostName <$> Hosts manager = ["B"].
Proof. eexists _, _. split; [vm_compute; reflexivity|]. by vm_compute. Qed.

Lemma reconcileHosts_keeps_newer_hosts_witness :
  [oldA; oldB] ≠ []
  ∧ reconcileHosts [oldA; oldB] [newB; newC; newA] = [newB; newA]
  ∧ reconcileHosts [oldA; oldB] [newB; newC; newA] `sublist_of` [newB; newC; newA].
Proof.
  assert ([oldA; oldB] ≠ []) as Hne by done.
  destruct (reconcileHosts_keeps_newer_hosts_in_newer_order
              [oldA; oldB] [newB; newC; newA] Hne) as [Heq Hsub].
  split_and!; [exact Hne| |exact Hsub].
  rewrite Heq. by vm_compute.
Defined.

Lemma NewManager_no_hosts_found_witness :
  loadBundle cfgRedfish "phaseX" []
  = (inr (redfishCfg, bundleABC), (loadBundle cfgRedfish "phaseX" []).2)
  ∧ Hosts (mgr (runSelectors [ByName "A"; ByName "B"] redfishCfg bundleABC
                  (fresh redfishCfg (loadBundle cfgRedfish "phaseX" []).2)).2) = []
  ∧ (NewManager cfgRedfish "phaseX" [ByName "A"; ByName "B"] []).1
    = (Some {| Config := redfishCfg; Hosts := [] |}, Some ErrNoHostsFound).
Proof.
  assert (loadBundle cfgRedfish "phaseX" []
          = (inr (redfishCfg, bundleABC), (loadBundle cfgRedfish "phaseX" []).2)) as Hload
    by (vm_compute; reflexivity).
  set (s := (runSelectors [ByName "A"; ByName "B"] redfishCfg bundleABC
               (fresh redfishCfg (loadBundle cfgRedfish "phaseX" []).2)).2).
  assert (runSelectors [ByName "A"; ByName "B"] redfishCfg bundleABC
            (fresh redfishCfg (loadBundle cfgRedfish "phaseX" []).2) = (inr (), s)) as Hrun
    by (vm_compute; reflexivity).
  assert (Hosts (mgr s) = []) as Hnil by (vm_compute; reflexivity).
  destruct (NewManager_no_hosts_found _ _ _ _ _ _ _ _ Hload Hrun Hnil) as [Heq _].
  split_and!; [exact Hload|exact Hnil|]. rewrite Heq. by vm_compute.
Defined.

Lemma NewManager_unknown_management_type_witness :
  CurrentContextManagementConfig cfgBogus = inr bogusCfg
  ∧ Type_ bogusCfg ≠ redfish_ClientType
  ∧ Type_ bogusCfg ≠ redfishdell_ClientType
  ∧ NewManager cfgBogus "phaseX" [ByLabel "site=1"] []
    = ((None, Some (ErrUnknownManagementType "bogus")),
       [mkEvent CallCurrentContextManagementConfig None;
        mkEvent (CallValidate bogusCfg) (Some (ErrUnknownManagementType "bogus"))]).
Proof.
  assert (CurrentContextManagementConfig cfgBogus = inr bogusCfg) as Hcfg by done.
  assert (Type_ bogusCfg ≠ redfish_ClientType) as Hr by done.
  assert (Type_ bogusCfg ≠ redfishdell_ClientType) as Hd by done.
  split_and!; [exact Hcfg|exact Hr|exact Hd|].
  exact (proj1 (NewManager_unknown_management_type
                  cfgBogus "phaseX" [ByLabel "site=1"] bogusCfg Hcfg Hr Hd)).
Defined.

Lemma NewManager_failure_paths_witness :
  NewManager cfgNone "phaseX" (selectorOf <$> [byName "A"]) []
  = ((None, Some (ErrOther "missing management configuration")),
     [mkEvent CallCurrentContextManagementConfig (Some (ErrOther "missing management configuration"))])
  ∧ (NewManager cfgRedfish "phaseX" (selectorOf <$> [byName "Z"]) []).1
    = (None, Some (ErrDocNotFound (nameSelector "Z")))
  ∧ (NewManager cfgRedfish "phaseX" (selectorOf <$> [byName "A"; byName "B"]) []).1
    = (Some {| Config := redfishCfg; Hosts := [] |}, Some ErrNoHostsFound).
Proof.
  split_and!.
  - destruct (NewManager_failure_paths cfgNone "phaseX" [byName "A"] []) as (Hp & _).
    apply Hp. by vm_compute.
  - destruct (NewManager_failure_paths cfgRedfish "phaseX" [byName "Z"] [])
      as (_ & Hp & _).
    erewrite Hp; [reflexivity|vm_compute; reflexivity|vm_compute; reflexivity].
  - destruct (NewManager_failure_paths cfgRedfish "phaseX" [byName "A"; byName "B"] [])
      as (_ & _ & Hp & _).
    edestruct Hp as [Heq _]; [vm_compute; reflexivity|vm_compute; reflexivity| |].
    + by vm_compute.
    + by rewrite Heq.
Defined.

Lemma ByLabel_hosts_per_document_witness :
  Select bundleABC (labelSelector "site=1") = inr [host "A" ["site=1"]; host "B" ["site=1"]]
  ∧ (∃ hs l',
       ByLabel "site=1" redfishCfg bundleABC (fresh redfishCfg [])
       = (inr (), {| mgr := {| Config := redfishCfg; Hosts := hs |}; log := l' |})
       ∧ length hs = 2
       ∧ HostName <$> hs = ["A"; "B"])
  ∧ Select bundleABD (labelSelector "site=1")
    = inr ([host "A" ["site=1"]; host "B" ["site=1"]] ++ docD :: [])
  ∧ hostOf redfishCfg bundleABD docD = inl (ErrOther "missing BMC credentials")
  ∧ ∃ l',
      ByLabel "site=1" redfishCfg bundleABD (fresh redfishCfg [])
      = (inl (ErrOther "missing BMC credentials"),
         {| mgr := {| Config := redfishCfg; Hosts := [] |}; log := l' |}).
Proof.
  assert (Select bundleABC (labelSelector "site=1")
          = inr [host "A" ["site=1"]; host "B" ["site=1"]]) as Hsel by (vm_compute; reflexivity).
  assert (Select bundleABD (labelSelector "site=1")
          = inr ([host "A" ["site=1"]; host "B" ["site=1"]] ++ docD :: [])) as Hsel'
    by (vm_compute; reflexivity).
  assert (hostOf redfishCfg bundleABD docD = inl (ErrOther "missing BMC credentials")) as HD
    by (vm_compute; reflexivity).
  split_and!; [exact Hsel| |exact Hsel'|exact HD|].
  - destruct (ByLabel_hosts_per_document "site=1" redfishCfg bundleABC (fresh redfishCfg []) _ Hsel)
      as (_ & Hk & _).
    destruct Hk as (hs & l' & Hrun & Hlen & _ & Hnames & Hfirst); [done| |].
    { intros doc [->|[->|[]%elem_of_nil]%elem_of_cons]%elem_of_cons; by vm_compute. }
    rewrite (Hfirst eq_refl) in Hrun.
    exists hs, l'. split_and!; [exact Hrun|exact Hlen|exact Hnames].
  - destruct (ByLabel_hosts_per_document "site=1" redfishCfg bundleABD (fresh redfishCfg []) _ Hsel')
      as (_ & _ & Hfail).
    apply (Hfail _ _ _ _ eq_refl); [|exact HD].
    intros doc [->|[->|[]%elem_of_nil]%elem_of_cons]%elem_of_cons; by vm_compute.
Defined.

Lemma ByName_zero_or_one_document_witness :
  Select bundleABC (nameSelector "Z") = inr []
  ∧ (∃ l', ByName "Z" redfishCfg bundleABC (fresh redfishCfg [])
           = (inl (ErrDocNotFound (nameSelector "Z")), {| mgr := {| Config := redfishCfg; Hosts := [] |}; log := l' |}))
  ∧ Select bundleABC (nameSelector "B") = inr [host "B" ["site=1"]]
  ∧ (∃ h l', hostOf redfishCfg bundleABC (host "B" ["site=1"]) = inr h
             ∧ ByName "B" redfishCfg bundleABC (fresh redfishCfg [])
               = (inr (), {| mgr := {| Config := redfishCfg; Hosts := [h] |}; log := l' |})
             ∧ HostName h = "B")
  ∧ Select bundleABD (nameSelector "D") = inr [docD]
  ∧ hostOf redfishCfg bundleABD docD = inl (ErrOther "missing BMC credentials")
  ∧ ∃ l', ByName "D" redfishCfg bundleABD (fresh redfishCfg [])
          = (inl (ErrOther "missing BMC credentials"),
             {| mgr := {| Config := redfishCfg; Hosts := [] |}; log := l' |}).
Proof.
  assert (Select bundleABC (nameSelector "Z") = inr []) as HZ by (vm_compute; reflexivity).
  assert (Select bundleABC (nameSelector "B") = inr [host "B" ["site=1"]]) as HB
    by (vm_compute; reflexivity).
  assert (Select bundleABD (nameSelector "D") = inr [docD]) as HD by (vm_compute; reflexivity).
  assert (hostOf redfishCfg bundleABD docD = inl (ErrOther "missing BMC credentials")) as HhD
    by (vm_compute; reflexivity).
  split_and!; [exact HZ| |exact HB| |exact HD|exact HhD|].
  - destruct (ByName_zero_or_one_document "Z" redfishCfg bundleABC (fresh redfishCfg []))
      as [H0 _].
    exact (proj1 (H0 HZ)).
  - destruct (ByName_zero_or_one_document "B" redfishCfg bundleABC (fresh redfishCfg []))
      as [_ H1].
    destruct (H1 _ HB) as [Hbuilt _].
    destruct (hostOf redfishCfg bundleABC (host "B" ["site=1"])) as [e|h] eqn:Hh;
      [by vm_compute in Hh|].
    destruct (Hbuilt h eq_refl) as (Hname & [l' Hrun] & Hfirst).
    rewrite (Hfirst eq_refl) in Hrun.
    exists h, l'. split_and!; [reflexivity|exact Hrun|]. rewrite Hname. reflexivity.
  - destruct (ByName_zero_or_one_document "D" redfishCfg bundleABD (fresh redfishCfg []))
      as [_ H1].
    destruct (H1 _ HD) as [_ Hfails].
    exact (proj1 (Hfails _ HhD)).
Defined.

(** No label of the fixture selects two documents of the same name. *)
Lemma abc_names_unique m (docBundle : document_Bundle) l1 label docs :
  loadBundle cfgRedfish "phaseX" [] = (inr (m, docBundle), l1) →
  Select docBundle (labelSelector label) = inr docs →
  NoDup (GetName <$> docs).
Proof.
  intros Hload Hsel.
  assert (docBundle = bundleABC) as ->.
  { vm_compute in Hload. by injection Hload as _ <- _. }
  simpl in Hsel. injection Hsel as <-.
  apply (sublist_NoDup _ (dName <$> abc)); [|apply fmap_sublist, sublist_filter].
  apply (bool_decide_unpack _). by vm_compute.
Qed.

Lemma NewManager_hosts_unique_witness :
  (∀ m (docBundle : document_Bundle) l1 label docs,
     loadBundle cfgRedfish "phaseX" [] = (inr (m, docBundle), l1) →
     Select docBundle (labelSelector label) = inr docs →
     NoDup (GetName <$> docs))
  ∧ (NewManager cfgRedfish "phaseX" (selectorOf <$> [byLabel "site=1"]) []).1.2 = None
  ∧ NoDup (HostName <$> from_option Hosts []
             (NewManager cfgRedfish "phaseX" (selectorOf <$> [byLabel "site=1"]) []).1.1).
Proof.
  split_and!; [exact abc_names_unique|by vm_compute|].
  destruct (NewManager cfgRedfish "phaseX" (selectorOf <$> [byLabel "site=1"]) [])
    as [[[manager|] [e|]] l] eqn:Hrun; try (by vm_compute in Hrun).
  simpl.
  exact (NewManager_hosts_unique_when_documents_are cfgRedfish "phaseX" [byLabel "site=1"] []
           manager l abc_names_unique Hrun).
Defined.

Lemma NewManager_validates_once_witness :
  CurrentContextManagementConfig cfgRedfish = inr redfishCfg
  ∧ resolutions (NewManager cfgRedfish "phaseX" (selectorOf <$> [byLabel "site=1"; byName "B"]) []).2 = 1
  ∧ validations (NewManager cfgRedfish "phaseX" (selectorOf <$> [byLabel "site=1"; byName "B"]) []).2 = 1
  ∧ CurrentContextManagementConfig cfgNone = inl (ErrOther "missing management configuration")
  ∧ resolutions (NewManager cfgNone "phaseX" (selectorOf <$> [byLabel "site=1"; byName "B"]) []).2 = 1
  ∧ validations (NewManager cfgNone "phaseX" (selectorOf <$> [byLabel "site=1"; byName "B"]) []).2 = 0.
Proof.
  assert (CurrentContextManagementConfig cfgRedfish = inr redfishCfg) as Hcfg by done.
  assert (CurrentContextManagementConfig cfgNone
          = inl (ErrOther "missing management configuration")) as Hnone by done.
  destruct (NewManager_validates_once_before_loading
              cfgRedfish "phaseX" [byLabel "site=1"; byName "B"])
    as (Hr & Hresolved & _).
  destruct (Hresolved _ Hcfg) as [Hv _].
  destruct (NewManager_validates_once_before_loading
              cfgNone "phaseX" [byLabel "site=1"; byName "B"])
    as (Hr' & _ & Hunresolved).
  destruct (Hunresolved _ Hnone) as [_ Hv'].
  split_and!; [exact Hcfg|exact Hr|exact Hv|exact Hnone|exact Hr'|exact Hv'].
Defined.

(** C7, as stated, fails: the current context names no management
    configuration, the resolution fails, and [NewManager] returns that
    error after the one call; the configuration is validated zero times,
    not once. *)
Lemma NewManager_unresolved_is_not_validated :
  NewManager cfgNone "phaseX" [ByLabel "site=1"] []
  = ((None, Some (ErrOther "missing management configuration")),
     [mkEvent CallCurrentContextManagementConfig
        (Some (ErrOther "missing management configuration"))])
  ∧ resolutions (NewManager cfgNone "phaseX" [ByLabel "site=1"] []).2 = 1
  ∧ validations (NewManager cfgNone "phaseX" [ByLabel "site=1"] []).2 = 0
  ∧ validations (NewManager cfgNone "phaseX" [ByLabel "site=1"] []).2 ≠ 1.
Proof. split_and!; [by vm_compute..|]. by vm_compute. Qed.

End Fixture.

Section FixtureMissingCredentials.
Import fixture.

#[local] Existing Instance ABD.

Lemma resolution_failure_aborts_witness :
  resolutionFailure docD (ErrOther "missing BMC credentials") credentialsOfDFail
  ∧ credentialsOfDFail
    ∈ log (selectorOf (byLabel "site=1") redfishCfg bundleABD (fresh redfishCfg [])).2
  ∧ (selectorOf (byLabel "site=1") redfishCfg bundleABD (fresh redfishCfg [])).1
    = inl (ErrOther "missing BMC credentials")
  ∧ mgr (selectorOf (byLabel "site=1") redfishCfg bundleABD (fresh redfishCfg [])).2
    = {| Config := redfishCfg; Hosts := [] |}
  ∧ credentialsOfDFail ∈ (NewManager cfgABD "phaseX" (selectorOf <$> [byLabel "site=1"]) []).2
  ∧ (NewManager cfgABD "phaseX" (selectorOf <$> [byLabel "site=1"]) []).1
    = (None, Some (ErrOther "missing BMC credentials")).
Proof.
  assert (resolutionFailure docD (ErrOther "missing BMC credentials") credentialsOfDFail) as Hfail.
  { split; [done|by right]. }
  assert (credentialsOfDFail
          ∈ log (selectorOf (byLabel "site=1") redfishCfg bundleABD (fresh redfishCfg [])).2) as Hin1.
  { apply (list_elem_of_lookup_2 _ 8). by vm_compute. }
  assert (credentialsOfDFail
          ∈ (NewManager cfgABD "phaseX" (selectorOf <$> [byLabel "site=1"]) []).2) as Hin2.
  { apply (list_elem_of_lookup_2 _ 14). by vm_compute. }
  destruct (resolution_failure_aborts _ _ _ Hfail) as [Hsel Hnew].
  destruct (Hsel (byLabel "site=1") redfishCfg bundleABD (fresh redfishCfg []) _ eq_refl Hin1)
    as [Hres Hmgr].
  split_and!; [exact Hfail|exact Hin1|exact Hres|exact Hmgr|exact Hin2|].
  exact (Hnew cfgABD "phaseX" [byLabel "site=1"] Hin2).
Defined.

(** C5, as stated, fails: the name D selects exactly one document, whose
    credentials are missing; [ByName] returns that error and the manager
    holds no host, not one, and [NewManager] returns the error and no
    manager. *)
Lemma ByName_one_document_no_host :
  Select bundleABD (nameSelector "D") = inr [docD]
  ∧ (ByName "D" redfishCfg bundleABD (fresh redfishCfg [])).1
    = inl (ErrOther "missing BMC credentials")
  ∧ Hosts (mgr (ByName "D" redfishCfg bundleABD (fresh redfishCfg [])).2) = []
  ∧ length (Hosts (mgr (ByName "D" redfishCfg bundleABD (fresh redfishCfg [])).2)) ≠ 1
  ∧ (NewManager cfgABD "phaseX" [ByName "D"] []).1
    = (None, Some (ErrOther "missing BMC credentials")).
Proof. split_and!; by vm_compute. Qed.

(** C6, as stated, fails: the label site=1 selects k = 3 documents, A, B
    and D; the credentials of D are missing, so [ByLabel] returns that
    error after it has built the hosts of A and B, and the manager holds
    no host, not three; [NewManager] returns the error and no manager. *)
Lemma ByLabel_three_documents_no_host :
  Select bundleABD (labelSelector "site=1")
  = inr [host "A" ["site=1"]; host "B" ["site=1"]; docD]
  ∧ (ByLabel "site=1" redfishCfg bundleABD (fresh redfishCfg [])).1
    = inl (ErrOther "missing BMC credentials")
  ∧ Hosts (mgr (ByLabel "site=1" redfishCfg bundleABD (fresh redfishCfg [])).2) = []
  ∧ length (Hosts (mgr (ByLabel "site=1" redfishCfg bundleABD (fresh redfishCfg [])).2)) ≠ 3
  ∧ (NewManager cfgABD "phaseX" [ByLabel "site=1"] []).1
    = (None, Some (ErrOther "missing BMC credentials")).
Proof. split_and!; by vm_compute. Qed.

End FixtureMissingCredentials.

Section FixtureTwins.
Import fixture.

#[local] Existing Instance TWINS.

(** C3, as stated, fails: the label site=1 selects the two documents
    named node1, [ByLabel] builds a host for each, the reconciliation with
    the empty list returns both, and [NewManager] succeeds with two hosts
    of the same name. *)
Lemma NewManager_duplicate_host_names :
  (NewManager cfgTwins "phaseX" [ByLabel "site=1"] []).1.2 = None
  ∧ HostName <$> from_option Hosts [] (NewManager cfgTwins "phaseX" [ByLabel "site=1"] []).1.1
    = ["node1"; "node1"]
  ∧ ¬ NoDup (HostName <$> from_option Hosts []
               (NewManager cfgTwins "phaseX" [ByLabel "site=1"] []).1.1).
Proof.
  assert (HostName <$> from_option Hosts [] (NewManager cfgTwins "phaseX" [ByLabel "site=1"] []).1.1
          = ["node1"; "node1"]) as Hnames by (by vm_compute).
  split_and!; [by vm_compute|exact Hnames|].
  rewrite Hnames. intros Hnd. apply NoDup_cons in Hnd as [Hnotin _].
  apply Hnotin. by left.
Qed.

End FixtureTwins.
